(** * Experiment API views of polyaxon: a shallow embedding

    The development follows [polyaxon/api/experiments/views.py] and the
    [Project] model of [polyaxon/db/models/projects.py].  Views are
    embedded as computations in a state-and-exception monad over a
    [World] that holds the database tables the views touch, the Redis
    TTL store, and a journal of the outward effects (audit records,
    Celery sends, row creations) in the order they happen. *)

From Stdlib Require Import String Ascii ZArith OrderedTypeEx.
From stdpp Require Import base decidable option list sorting gmap strings.

Set Default Proof Using "Type".
Set Warnings "-register-all".

Local Open Scope string_scope.
Local Open Scope list_scope.

(** ** Python values

    The JSON-shaped values found in [request.data], in Celery keyword
    arguments and in response bodies.  Floats do not occur on the paths
    embedded below and are left out. *)

Inductive value : Type :=
| VNone
| VBool (b : bool)
| VInt (n : Z)
| VStr (s : string)
| VList (l : list value)
| VDict (d : gmap string value).

(** Python truth-value testing, as applied by [if ttl:], [if group:]
    and [independent and group_id]. *)
Definition truthy (v : value) : bool :=
  match v with
  | VNone => false
  | VBool b => b
  | VInt n => negb (n =? 0)%Z
  | VStr s => negb (String.eqb s EmptyString)
  | VList l => negb (bool_decide (length l = 0))
  | VDict d => negb (bool_decide (size d = 0))
  end.

(** [dict.get(key)]: the value, or [None] when the key is missing. *)
Definition dict_get (d : gmap string value) (k : string) : value :=
  default VNone (d !! k).

(** [key in dict]. *)
Definition dict_contains (d : gmap string value) (k : string) : bool :=
  bool_decide (is_Some (d !! k)).

(** [QueryDict.get(key, None)] lifted to a value. *)
Definition query_get (q : gmap string string) (k : string) : value :=
  from_option VStr VNone (q !! k).

(** ** Exceptions *)

Inductive exn : Type :=
| ValidationError (detail : string)
| DjangoValidationError (detail : string)
| Http404
| PermissionDenied
| ValueError
| AttributeError
| MultipleObjectsReturned.

(** ** [sorted] on lists of strings

    Python compares [str] by code point, lexicographically; on the byte
    strings of the embedding this is [String.leb].  [sorted] is a stable
    merge sort. *)

Definition str_le (s1 s2 : string) : Prop := String.leb s1 s2 = true.

#[global] Instance str_le_dec : RelDecision str_le :=
  λ s1 s2, decide (String.leb s1 s2 = true).

Definition sorted (l : list string) : list string := merge_sort str_le l.

(** ** Models *)

Record UUID : Type := { hex : string }.

Record User : Type := {
  user_id : nat;
  username : string;
  (** [scope] is the attribute the ephemeral authentication attaches to
      [request.user]; [None] is Python's [None]. *)
  scope : option (list string)
}.

(** [db/models/projects.py] *)
Record Project : Type := {
  project_id : nat;
  project_uuid : UUID;
  project_name : string;
  project_user : User;
  is_public : bool
}.

Record ExperimentGroup : Type := {
  eg_id : nat;
  eg_project : nat;
  eg_unique_name : string;
  eg_uuid : UUID
}.

Inductive CloningStrategy : Type := RESTART | RESUME | COPY.

Record Experiment : Type := {
  exp_id : nat;
  exp_uuid : UUID;
  exp_unique_name : string;
  exp_project : Project;
  exp_user : User;
  experiment_group : option ExperimentGroup;
  exp_description : value;
  exp_config : value;
  exp_declarations : value;
  code_reference : option nat;
  last_status : option string;
  original_experiment : option nat;
  cloning_strategy : option CloningStrategy
}.

Record ExperimentMetric : Type := {
  metric_experiment : nat;
  metric_values : value
}.

(** [rest_framework.authtoken.models.Token]: one row per key, the user
    column is a one-to-one foreign key. *)
Record Token : Type := {
  key : string;
  token_user : nat
}.

(** ** Events, tasks and the journal *)

Inductive EventType : Type :=
| EXPERIMENT_CREATED
| EXPERIMENT_RESTARTED_TRIGGERED
| EXPERIMENT_RESUMED_TRIGGERED
| EXPERIMENT_COPIED_TRIGGERED
| EXPERIMENT_STOPPED_TRIGGERED
| EXPERIMENT_GROUP_EXPERIMENTS_VIEWED
| PROJECT_EXPERIMENTS_VIEWED.

Inductive CeleryTask : Type :=
| EXPERIMENTS_STOP
| EXPERIMENTS_SET_METRICS.

(** The [instance=] argument of [auditor.record]. *)
Inductive Instance : Type :=
| OfExperiment (id : nat)
| OfProject (id : nat)
| OfExperimentGroup (id : nat).

Inductive Effect : Type :=
| Recorded (event_type : EventType) (instance : Instance)
           (actor_id : option nat) (actor_name : option string)
| Sent (task : CeleryTask) (kwargs : gmap string value)
| Created (instance : Instance).

Record World : Type := {
  experiments : gmap nat Experiment;
  experiment_groups : gmap nat ExperimentGroup;
  experiment_metrics : list ExperimentMetric;
  tokens : list Token;
  redis_ttl : gmap nat value;
  journal : list Effect
}.

Record Request : Type := {
  user : User;
  data : value;
  query_params : gmap string string;
  kwargs_id : nat;
  kwargs_experiment_id : nat
}.

Record Response : Type := {
  status : nat;
  body : value
}.

Definition HTTP_200_OK : nat := 200.
Definition HTTP_201_CREATED : nat := 201.
Definition HTTP_403_FORBIDDEN : nat := 403.

(** ** The monad of views: state passing with exceptions

    A raised exception keeps the effects performed before it. *)

Definition M (A : Type) : Type := World → (exn + A) * World.

#[global] Instance M_ret : MRet M := λ A a w, (inr a, w).

#[global] Instance M_bind : MBind M := λ A B f m w,
  match m w with
  | (inl e, w') => (inl e, w')
  | (inr a, w') => f a w'
  end.

Definition raise {A : Type} (e : exn) : M A := λ w, (inl e, w).

Definition get_world : M World := λ w, (inr w, w).

Definition lift {A : Type} (r : exn + A) : M A := λ w, (r, w).

Definition log (e : Effect) : M unit := λ w,
  (inr (),
   {| experiments := experiments w;
      experiment_groups := experiment_groups w;
      experiment_metrics := experiment_metrics w;
      tokens := tokens w;
      redis_ttl := redis_ttl w;
      journal := journal w ++ [e] |}).

(** [auditor.record(event_type=…, instance=…, actor_id=…, actor_name=…)] *)
Definition auditor_record (event_type : EventType) (instance : Instance)
    (actor_id : option nat) (actor_name : option string) : M unit :=
  log (Recorded event_type instance actor_id actor_name).

(** [celery_app.send_task(name, kwargs=…)] *)
Definition send_task (task : CeleryTask) (kwargs : gmap string value) : M unit :=
  log (Sent task kwargs).

(** Field updates of the world. *)
Definition set_experiments (f : gmap nat Experiment → gmap nat Experiment)
    (w : World) : World :=
  {| experiments := f (experiments w);
     experiment_groups := experiment_groups w;
     experiment_metrics := experiment_metrics w;
     tokens := tokens w;
     redis_ttl := redis_ttl w;
     journal := journal w |}.

Definition set_experiment_metrics
    (f : list ExperimentMetric → list ExperimentMetric) (w : World) : World :=
  {| experiments := experiments w;
     experiment_groups := experiment_groups w;
     experiment_metrics := f (experiment_metrics w);
     tokens := tokens w;
     redis_ttl := redis_ttl w;
     journal := journal w |}.

Definition set_tokens (f : list Token → list Token) (w : World) : World :=
  {| experiments := experiments w;
     experiment_groups := experiment_groups w;
     experiment_metrics := experiment_metrics w;
     tokens := f (tokens w);
     redis_ttl := redis_ttl w;
     journal := journal w |}.

Definition set_redis_ttl (f : gmap nat value → gmap nat value) (w : World) : World :=
  {| experiments := experiments w;
     experiment_groups := experiment_groups w;
     experiment_metrics := experiment_metrics w;
     tokens := tokens w;
     redis_ttl := f (redis_ttl w);
     journal := journal w |}.

Definition modify (f : World → World) : M unit := λ w, (inr (), f w).

(** ** Collaborators that live outside the embedded files

    Helpers the views import from other modules are taken as parameters;
    every theorem holds for all of them. *)

Record Specification : Type := {
  parsed_data : value;
  spec_declarations : value
}.

(** [db.redis.tll.RedisTTL.validate_ttl]; [inl ValueError] is the
    exception the views catch. *)
Class RedisTTL : Type := {
  validate_ttl : value → exn + value
}.

Class Collaborators : Type := {
  (** [libs.permissions.projects.get_permissible_project(view=self)] *)
  get_permissible_project : Request → World → exn + Project;
  (** [libs.utils.to_bool(v, handle_none=True, exception=ValidationError)] *)
  to_bool : value → exn + bool;
  (** [RedisEphemeralTokens.get_scope(user=…, model=…, object_id=…)] *)
  get_scope : nat → string → nat → list string;
  (** [db.models.unique_names.PROJECT_UNIQUE_NAME_FORMAT.format(user=…, project=…)] *)
  PROJECT_UNIQUE_NAME_FORMAT : string → string → string;
  (** Django's conversion of a lookup value for an [id] column. *)
  id_to_python : value → exn + nat;
  (** The [QueryFilter] and [OrderingFilter] backends run by
      [super().filter_queryset]. *)
  filter_backends : Request → list Experiment → exn + list Experiment;
  (** [Experiment.specification], read from the stored [config]. *)
  specification : Experiment → Specification;
  (** Schema check and declarations extraction of the specification reader. *)
  spec_schema_ok : gmap string value → bool;
  spec_read_declarations : gmap string value → value;
  (** [Token.generate_key()] *)
  generate_key : World → string;
  (** Identity given to a new experiment row. *)
  new_uuid : World → UUID;
  new_unique_name : Project → nat → string;
  (** The repository's current code reference of a project. *)
  current_code_reference : Project → option nat;
  (** [ExperimentSerializer(new_obj).data] *)
  serializer_data : Experiment → value;
  (** [ExperimentMetricSerializer]: [is_valid(raise_exception=True)] and [.data]. *)
  metric_is_valid : value → exn + value;
  metric_serializer_data : ExperimentMetric → value
}.

(** [Project.unique_name] of [db/models/projects.py]. *)
Definition unique_name `{Collaborators} (self : Project) : string :=
  PROJECT_UNIQUE_NAME_FORMAT (username (project_user self)) (project_name self).

(** Modelled from the spec: the constants of
    [constants.experiments.ExperimentLifeCycle], which is not among the
    embedded files; the spec names the operationally live statuses scheduled,
    starting and running. *)
Definition SCHEDULED : string := "scheduled".
Definition STARTING : string := "starting".
Definition RUNNING : string := "running".

(** Modelled from the spec: [RedisTTL.TTL_KEY], which is not among the
    embedded files; the spec calls the request field ttl. *)
Definition TTL_KEY : string := "ttl".

(** Modelled from the spec: [RedisTTL.set_for_experiment], which is not
    among the embedded files; the ttl is stored against the experiment id. *)
Definition set_for_experiment (experiment_id : nat) (v : value) : M unit :=
  modify (set_redis_ttl (λ m, <[experiment_id := v]> m)).

(** Modelled from the spec: the merge step of the specification validator,
    which is not among the embedded files.  The configurations are folded in
    order, a key of a later entry replacing the same key of an earlier one. *)
Definition merge_configs (configs : list (gmap string value)) : gmap string value :=
  foldl (λ acc c, c ∪ acc) ∅ configs.

Definition as_dict (v : value) : option (gmap string value) :=
  match v with VDict d => Some d | _ => None end.

(** Modelled from the spec: [libs.spec_validation.validate_experiment_spec_config],
    which is not among the embedded files.  The ordered list of configurations is merged, later
    entries overriding earlier keys, and the result is validated; a failure
    is raised as a validation error ([ValidationError] of the REST framework
    when [raise_for_rest] is set). *)
Definition validate_experiment_spec_config `{Collaborators}
    (configs : list value) (raise_for_rest : bool) : exn + Specification :=
  let message_error := "Received non valid specification config." in
  let invalid := if raise_for_rest then ValidationError message_error
                 else DjangoValidationError message_error in
  match mapM as_dict configs with
  | Some dicts =>
      let merged := merge_configs dicts in
      if spec_schema_ok merged
      then inr {| parsed_data := VDict merged;
                  spec_declarations := spec_read_declarations merged |}
      else inl invalid
  | None => inl invalid
  end.

(** Modelled from the spec: [Experiment.restart], [Experiment.resume] and
    [Experiment.copy] of [db.models.experiments], which are not among the
    embedded files.  The
    derived record gets a fresh identity and unique name and an empty status
    ledger; restart and resume keep the source's group, copy does not; the
    description is the supplied one and is not inherited; the code reference
    is recomputed when [update_code_reference] is set and copied otherwise;
    a supplied configuration replaces the source's. *)
Definition derive `{Collaborators} (strategy : CloningStrategy) (self : Experiment)
    (user : User) (config declarations : option value)
    (update_code_reference : bool) (description : value) : M Experiment := λ w,
  let id := fresh (dom (experiments w)) in
  let instance :=
    {| exp_id := id;
       exp_uuid := new_uuid w;
       exp_unique_name := new_unique_name (exp_project self) id;
       exp_project := exp_project self;
       exp_user := user;
       experiment_group :=
         match strategy with
         | COPY => None
         | RESTART | RESUME => experiment_group self
         end;
       exp_description := description;
       exp_config := default (exp_config self) config;
       exp_declarations := default (exp_declarations self) declarations;
       code_reference :=
         if update_code_reference then current_code_reference (exp_project self)
         else code_reference self;
       last_status := None;
       original_experiment := Some (exp_id self);
       cloning_strategy := Some strategy |} in
  (log (Created (OfExperiment id)) ;; mret instance)
    (set_experiments (λ m, <[id := instance]> m) w).

(** Modelled from the spec: [ExperimentCreateSerializer] of
    [api.experiments.serializers], which is not among the embedded files.
    The validated payload of a direct creation. *)
Record ExperimentCreateSerializer : Type := {
  validated_config : value;
  validated_declarations : value;
  validated_description : value;
  validated_group : option ExperimentGroup;
  validated_code_reference : option nat
}.

(** Modelled from the spec: [serializer.save(user=…, project=…)] of that
    serializer, which inserts the new experiment under the project with a
    fresh identity and an empty status ledger. *)
Definition serializer_save `{Collaborators} (serializer : ExperimentCreateSerializer)
    (user : User) (project : Project) : M Experiment := λ w,
  let id := fresh (dom (experiments w)) in
  let instance :=
    {| exp_id := id;
       exp_uuid := new_uuid w;
       exp_unique_name := new_unique_name project id;
       exp_project := project;
       exp_user := user;
       experiment_group := validated_group serializer;
       exp_description := validated_description serializer;
       exp_config := validated_config serializer;
       exp_declarations := validated_declarations serializer;
       code_reference := validated_code_reference serializer;
       last_status := None;
       original_experiment := None;
       cloning_strategy := None |} in
  (log (Created (OfExperiment id)) ;; mret instance)
    (set_experiments (λ m, <[id := instance]> m) w).

(** ** Shared pieces of the views *)

(** [try: ttl = RedisTTL.validate_ttl(ttl)
     except ValueError: raise ValidationError('ttl must be an integer.')] *)
Definition try_validate_ttl `{RedisTTL} (ttl : value) : M value :=
  match validate_ttl ttl with
  | inr ttl => mret ttl
  | inl ValueError => raise (ValidationError "ttl must be an integer.")
  | inl e => raise e
  end.

(** [get_object_or_404(Experiment-queryset, project=project, id=id)] *)
Definition get_experiment_or_404 (project : Project) (id : nat) : M Experiment :=
  w ← get_world;
  match experiments w !! id with
  | Some obj =>
      if bool_decide (project_id (exp_project obj) = project_id project)
      then mret obj else raise Http404
  | None => raise Http404
  end.

(** [self.get_object()] of the views whose [filter_queryset] is
    [queryset.filter(project=get_permissible_project(view=self))] and whose
    [lookup_field] is ['id']. *)
Definition get_object `{Collaborators} (request : Request) : M Experiment :=
  w ← get_world;
  project ← lift (get_permissible_project request w);
  get_experiment_or_404 project (kwargs_id request).

(** [ExperimentViewMixin.get_experiment] *)
Definition get_experiment `{Collaborators} (request : Request) : M Experiment :=
  w ← get_world;
  project ← lift (get_permissible_project request w);
  get_experiment_or_404 project (kwargs_experiment_id request).

(** ** [ProjectExperimentListView] *)

Definition get_group `{Collaborators} (request : Request) (project : Project)
    (group_id : value) : M ExperimentGroup :=
  id ← lift (id_to_python group_id);
  w ← get_world;
  match experiment_groups w !! id with
  | Some group =>
      if bool_decide (eg_project group = project_id project)
      then
        auditor_record EXPERIMENT_GROUP_EXPERIMENTS_VIEWED
          (OfExperimentGroup ((eg_id group)))
          (Some (user_id (user request))) (Some (username (user request))) ;;
        mret group
      else raise Http404
  | None => raise Http404
  end.

Definition ProjectExperimentListView_filter_queryset `{Collaborators}
    (request : Request) (queryset : list Experiment) : M (list Experiment) :=
  independent ← lift (to_bool (query_get (query_params request) "independent"));
  let group_id := query_get (query_params request) "group" in
  if independent && truthy group_id
  then raise (ValidationError
         "You cannot filter for independent experiments and group experiments at the same time.")
  else
    w ← get_world;
    project ← lift (get_permissible_project request w);
    let queryset :=
      filter (λ e, project_id (exp_project e) = project_id project) queryset in
    let queryset :=
      if independent
      then filter (λ e, ¬ is_Some (experiment_group e)) queryset
      else queryset in
    queryset ←
      (if truthy group_id
       then
         group ← get_group request project group_id;
         mret (filter (λ e, eg_id <$> experiment_group e = Some (eg_id group))
                      queryset)
       else mret queryset);
    auditor_record PROJECT_EXPERIMENTS_VIEWED (OfProject (project_id project))
      (Some (user_id (user request))) (Some (username (user request))) ;;
    lift (filter_backends request queryset).

(** [ExperimentGroup.objects.filter(id=group, project=project).count()] *)
Definition group_count `{Collaborators} (group : value) (project : Project) : M nat :=
  id ← lift (id_to_python group);
  w ← get_world;
  mret (match experiment_groups w !! id with
        | Some g => if bool_decide (eg_project g = project_id project) then 1 else 0
        | None => 0
        end).

Definition ProjectExperimentListView_perform_create `{RedisTTL, Collaborators}
    (request : Request) (serializer : ExperimentCreateSerializer) : M unit :=
  match data request with
  | VDict data =>
      let ttl := dict_get data TTL_KEY in
      ttl ← (if truthy ttl then try_validate_ttl ttl else mret ttl);
      w ← get_world;
      project ← lift (get_permissible_project request w);
      let group := dict_get data "experiment_group" in
      invalid ←
        (if truthy group
         then n ← group_count group project; mret (Nat.eqb n 0)
         else mret false);
      if (invalid : bool)
      then raise (ValidationError "Received an invalid group.")
      else
        instance ← serializer_save serializer (user request) project;
        auditor_record EXPERIMENT_CREATED (OfExperiment (exp_id instance))
          None None ;;
        if truthy ttl then set_for_experiment (exp_id instance) ttl else mret ()
  | _ => raise AttributeError
  end.

(** ** [ExperimentCloneView] and its three subclasses

    Each subclass supplies [event_type] and [clone]; [post] is inherited. *)

Definition event_type (strategy : CloningStrategy) : EventType :=
  match strategy with
  | RESTART => EXPERIMENT_RESTARTED_TRIGGERED
  | RESUME => EXPERIMENT_RESUMED_TRIGGERED
  | COPY => EXPERIMENT_COPIED_TRIGGERED
  end.

Definition clone `{Collaborators} (strategy : CloningStrategy) (request : Request)
    (obj : Experiment) (config declarations : option value)
    (update_code_reference : bool) (description : value) : M Experiment :=
  derive strategy obj (user request) config declarations
         update_code_reference description.

Definition ExperimentCloneView_post `{RedisTTL, Collaborators}
    (strategy : CloningStrategy) (request : Request) : M Response :=
  match data request with
  | VDict data =>
      let ttl := dict_get data TTL_KEY in
      ttl ← (if truthy ttl then try_validate_ttl ttl else mret ttl);
      obj ← get_object request;
      auditor_record (event_type strategy) (OfExperiment (exp_id obj))
        (Some (user_id (user request))) (Some (username (user request))) ;;
      '(config, declarations) ←
        (if dict_contains data "config"
         then
           spec ← lift (validate_experiment_spec_config
                          [parsed_data (specification obj); dict_get data "config"]
                          true);
           mret (Some (parsed_data spec), Some (spec_declarations spec))
         else mret (None, None));
      update_code_reference ←
        (if dict_contains data "update_code"
         then lift (to_bool (dict_get data "update_code"))
         else mret false);
      let description :=
        if dict_contains data "description" then dict_get data "description"
        else VNone in
      new_obj ← clone strategy request obj config declarations
                  update_code_reference description;
      (if truthy ttl then set_for_experiment (exp_id new_obj) ttl else mret ()) ;;
      mret {| status := HTTP_201_CREATED; body := serializer_data new_obj |}
  | _ => raise AttributeError
  end.

Definition ExperimentRestartView_post `{RedisTTL, Collaborators} :=
  ExperimentCloneView_post RESTART.
Definition ExperimentResumeView_post `{RedisTTL, Collaborators} :=
  ExperimentCloneView_post RESUME.
Definition ExperimentCopyView_post `{RedisTTL, Collaborators} :=
  ExperimentCloneView_post COPY.

(** ** [ExperimentMetricListView] *)

Definition ExperimentMetricListView_perform_create `{Collaborators}
    (request : Request) (validated : value) : M ExperimentMetric :=
  experiment ← get_experiment request;
  let row := {| metric_experiment := exp_id experiment;
                metric_values := validated |} in
  modify (set_experiment_metrics (λ rows, rows ++ [row])) ;;
  mret row.

Definition ExperimentMetricListView_create `{Collaborators}
    (request : Request) : M Response :=
  match data request with
  | VList records =>
      experiment ← get_experiment request;
      send_task EXPERIMENTS_SET_METRICS
        {[ "experiment_id" := VInt (Z.of_nat (exp_id experiment));
           "data" := data request ]} ;;
      mret {| status := HTTP_201_CREATED; body := VNone |}
  | _ =>
      validated ← lift (metric_is_valid (data request));
      row ← ExperimentMetricListView_perform_create request validated;
      mret {| status := HTTP_201_CREATED; body := metric_serializer_data row |}
  end.

(** ** [ExperimentStopView] *)

Definition ExperimentStopView_post `{Collaborators} (request : Request) : M Response :=
  obj ← get_object request;
  auditor_record EXPERIMENT_STOPPED_TRIGGERED (OfExperiment (exp_id obj))
    (Some (user_id (user request))) (Some (username (user request))) ;;
  let group := experiment_group obj in
  send_task EXPERIMENTS_STOP
    {[ "project_name" := VStr (unique_name (exp_project obj));
       "project_uuid" := VStr (hex (project_uuid (exp_project obj)));
       "experiment_name" := VStr (exp_unique_name obj);
       "experiment_uuid" := VStr (hex (exp_uuid obj));
       "experiment_group_name" :=
         from_option (λ g, VStr (eg_unique_name g)) VNone group;
       "experiment_group_uuid" :=
         from_option (λ g, VStr (hex (eg_uuid g))) VNone group;
       "specification" := exp_config obj;
       "update_status" := VBool true ]} ;;
  mret {| status := HTTP_200_OK; body := VNone |}.

(** ** [ExperimentScopeTokenView] *)

(** [get_object()] of a view with the default [filter_queryset]. *)
Definition get_object_by_id (request : Request) : M Experiment :=
  w ← get_world;
  match experiments w !! kwargs_id request with
  | Some obj => mret obj
  | None => raise Http404
  end.

(** [Token.objects.get_or_create(user=user)] *)
Definition Token_get_or_create `{Collaborators} (user : User) : M (Token * bool) :=
  w ← get_world;
  match filter (λ t, token_user t = user_id user) (tokens w) with
  | [] =>
      let token := {| key := generate_key w; token_user := user_id user |} in
      modify (set_tokens (λ rows, rows ++ [token])) ;;
      mret (token, true)
  | [token] => mret (token, false)
  | _ => raise MultipleObjectsReturned
  end.

Definition forbidden : Response := {| status := HTTP_403_FORBIDDEN; body := VNone |}.

Definition ExperimentScopeTokenView_post `{Collaborators} (request : Request) : M Response :=
  let user := user request in
  match scope user with
  | None => mret forbidden
  | Some user_scope =>
      experiment ← get_object_by_id request;
      if negb (bool_decide (last_status experiment ∈
                              [Some SCHEDULED; Some STARTING; Some RUNNING]))
      then mret forbidden
      else
        let scope := get_scope (user_id (exp_user experiment)) "experiment"
                               (exp_id experiment) in
        if bool_decide (sorted user_scope ≠ sorted scope)
        then mret forbidden
        else
          '(token, _) ← Token_get_or_create (exp_user experiment);
          mret {| status := HTTP_200_OK;
                  body := VDict {[ "token" := VStr (key token) ]} |}
  end.

(** ** [ProjectExperimentListView.get_serializer_class] *)

(** The four serializer classes the view names in its class attributes. *)
Inductive SerializerClass : Type :=
| serializer_class
| metrics_serializer_class
| declarations_serializer_class
| create_serializer_class.

(** [str.lower()] on the ASCII letters an HTTP method is written in. *)
Definition lower_ascii (a : ascii) : ascii :=
  let n := N_of_ascii a in
  if ((65 <=? n) && (n <=? 90))%N then ascii_of_N (n + 32) else a.

Fixpoint lower (s : string) : string :=
  match s with
  | EmptyString => EmptyString
  | String a rest => String (lower_ascii a) (lower rest)
  end.

(** [create_serializer_class] is set on the view, so the first test is the
    one on the method. *)
Definition ProjectExperimentListView_get_serializer_class `{Collaborators}
    (method : string) (request : Request) : exn + SerializerClass :=
  if String.eqb (lower method) "post"
  then inr create_serializer_class
  else
    match to_bool (query_get (query_params request) "metrics") with
    | inl e => inl e
    | inr metrics_only =>
        if metrics_only
        then inr metrics_serializer_class
        else
          match to_bool (query_get (query_params request) "declarations") with
          | inl e => inl e
          | inr declarations_only =>
              if declarations_only
              then inr declarations_serializer_class
              else inr serializer_class
          end
    end.

(** ** The cached properties of [Project] ([db/models/projects.py])

    The related managers read the tables when they are called; the rows
    arrive in primary-key order, which is the order [.last()] uses on an
    unordered queryset.  A [cached_property] stores its first result on the
    instance and answers from there afterwards. *)

Record NotebookJob : Type := {
  nb_id : nat;
  nb_is_running : bool
}.

Record TensorboardJob : Type := {
  tb_id : nat;
  tb_experiment : option nat;
  tb_experiment_group : option nat;
  tb_is_running : bool
}.

(** The rows the managers of one project see. *)
Record ProjectJobs : Type := {
  notebook_jobs : list NotebookJob;
  tensorboard_jobs : list TensorboardJob
}.

(** The slots of the instance dictionary the four cached properties use. *)
Record ProjectCache : Type := {
  cached_notebook : option (option NotebookJob);
  cached_has_notebook : option value;
  cached_tensorboard : option (option TensorboardJob);
  cached_has_tensorboard : option value
}.

Definition empty_cache : ProjectCache :=
  {| cached_notebook := None; cached_has_notebook := None;
     cached_tensorboard := None; cached_has_tensorboard := None |}.

(** [self.notebook_jobs.last()] *)
Definition notebook (jobs : ProjectJobs) (self : ProjectCache)
    : option NotebookJob * ProjectCache :=
  match cached_notebook self with
  | Some v => (v, self)
  | None =>
      let v := last (notebook_jobs jobs) in
      (v, {| cached_notebook := Some v;
             cached_has_notebook := cached_has_notebook self;
             cached_tensorboard := cached_tensorboard self;
             cached_has_tensorboard := cached_has_tensorboard self |})
  end.

(** [notebook and notebook.is_running]: a model instance is truthy, so the
    result is [None] without a notebook and the flag otherwise. *)
Definition has_notebook (jobs : ProjectJobs) (self : ProjectCache)
    : value * ProjectCache :=
  match cached_has_notebook self with
  | Some v => (v, self)
  | None =>
      let '(notebook, self) := notebook jobs self in
      let v := match notebook with
               | None => VNone
               | Some job => VBool (nb_is_running job)
               end in
      (v, {| cached_notebook := cached_notebook self;
             cached_has_notebook := Some v;
             cached_tensorboard := cached_tensorboard self;
             cached_has_tensorboard := cached_has_tensorboard self |})
  end.

(** [self.tensorboard_jobs.filter(experiment=None, experiment_group=None).last()] *)
Definition tensorboard (jobs : ProjectJobs) (self : ProjectCache)
    : option TensorboardJob * ProjectCache :=
  match cached_tensorboard self with
  | Some v => (v, self)
  | None =>
      let v := last (filter (λ job, tb_experiment job = None ∧
                                    tb_experiment_group job = None)
                            (tensorboard_jobs jobs)) in
      (v, {| cached_notebook := cached_notebook self;
             cached_has_notebook := cached_has_notebook self;
             cached_tensorboard := Some v;
             cached_has_tensorboard := cached_has_tensorboard self |})
  end.

Definition has_tensorboard (jobs : ProjectJobs) (self : ProjectCache)
    : value * ProjectCache :=
  match cached_has_tensorboard self with
  | Some v => (v, self)
  | None =>
      let '(tensorboard, self) := tensorboard jobs self in
      let v := match tensorboard with
               | None => VNone
               | Some job => VBool (tb_is_running job)
               end in
      (v, {| cached_notebook := cached_notebook self;
             cached_has_notebook := cached_has_notebook self;
             cached_tensorboard := cached_tensorboard self;
             cached_has_tensorboard := Some v |})
  end.

(** ** A concrete deployment, used to run the views on explicit inputs *)

Definition is_digit (a : ascii) : bool :=
  let n := N_of_ascii a in ((48 <=? n) && (n <=? 57))%N.

Fixpoint decimal (s : string) (acc : Z) : option Z :=
  match s with
  | EmptyString => Some acc
  | String a rest =>
      if is_digit a
      then decimal rest (10 * acc + Z.of_N (N_of_ascii a - 48))%Z
      else None
  end.

(** [int(value)] on integers and on strings of decimal digits; anything
    else is the [ValueError] the views catch. *)
#[local] Instance sample_redis_ttl : RedisTTL := {|
  validate_ttl v :=
    match v with
    | VInt n => inr (VInt n)
    | VStr (String a rest) =>
        from_option (λ n, inr (VInt n)) (inl ValueError) (decimal (String a rest) 0)
    | _ => inl ValueError
    end
|}.

Definition alice : User := {| user_id := 1; username := "alice"; scope := None |}.

Definition worker (presented : option (list string)) : User :=
  {| user_id := 0; username := EmptyString; scope := presented |}.

Definition quick_start : Project :=
  {| project_id := 1; project_uuid := {| hex := "0a" |};
     project_name := "quick-start"; project_user := alice; is_public := true |}.

Definition sweep : ExperimentGroup :=
  {| eg_id := 1; eg_project := 1; eg_unique_name := "alice.quick-start.1";
     eg_uuid := {| hex := "0b" |} |}.

Definition experiment_with (id : nat) (group : option ExperimentGroup)
    (st : option string) : Experiment :=
  {| exp_id := id; exp_uuid := {| hex := "0c" |};
     exp_unique_name := "alice.quick-start.1";
     exp_project := quick_start; exp_user := alice;
     experiment_group := group;
     exp_description := VStr "baseline";
     exp_config := VDict {[ "lr" := VStr "0.1" ]};
     exp_declarations := VDict {[ "lr" := VStr "0.1" ]};
     code_reference := None; last_status := st;
     original_experiment := None; cloning_strategy := None |}.

#[local] Instance sample_collaborators : Collaborators := {|
  get_permissible_project _ _ := inr quick_start;
  to_bool v :=
    match v with
    | VNone => inr false
    | VBool b => inr b
    | VStr "true" | VStr "1" | VInt 1 => inr true
    | VStr "false" | VStr "0" | VInt 0 => inr false
    | _ => inl (ValidationError "The value cannot be interpreted as boolean")
    end;
  get_scope _ _ object_id :=
    match object_id with
    | 1 => ["username:alice"; "experiment:1"]
    | 2 => ["experiment:2"]
    | 3 => ["experiment:3"]
    | _ => []
    end;
  PROJECT_UNIQUE_NAME_FORMAT u p := u +:+ "." +:+ p;
  id_to_python v :=
    match v with
    | VInt n => inr (Z.to_nat n)
    | _ => inl ValueError
    end;
  filter_backends _ qs := inr qs;
  specification e :=
    {| parsed_data := exp_config e; spec_declarations := exp_declarations e |};
  spec_schema_ok m := bool_decide (is_Some (m !! "lr"));
  spec_read_declarations m := VDict m;
  generate_key _ := "9944b09199c62bcf9418ad846dd0e4bbdfc6ee4b";
  new_uuid _ := {| hex := "0d" |};
  new_unique_name _ id := "alice.quick-start.new";
  current_code_reference _ := None;
  serializer_data e := VInt (Z.of_nat (exp_id e));
  metric_is_valid v := inr v;
  metric_serializer_data r := metric_values r
|}.

Definition sample_world : World :=
  {| experiments :=
       {[ 1 := experiment_with 1 None (Some RUNNING);
          2 := experiment_with 2 (Some sweep) (Some "succeeded");
          3 := experiment_with 3 None (Some STARTING);
          4 := experiment_with 4 None (Some SCHEDULED) ]};
     experiment_groups := {[ 1 := sweep ]};
     experiment_metrics := [];
     tokens := [];
     redis_ttl := ∅;
     journal := [] |}.

Definition request_on (id : nat) (u : User) (d : value)
    (q : gmap string string) : Request :=
  {| user := u; data := d; query_params := q;
     kwargs_id := id; kwargs_experiment_id := id |}.

(** Requests run against [sample_world]. *)

Definition request_rearranged : Request :=
  request_on 1 (worker (Some ["experiment:1"; "username:alice"])) VNone ∅.

Definition request_duplicated : Request :=
  request_on 3 (worker (Some ["experiment:3"; "experiment:3"])) VNone ∅.

Definition request_no_grant : Request := request_on 4 (worker None) VNone ∅.

Definition request_finished : Request :=
  request_on 2 (worker (Some ["experiment:2"])) VNone ∅.

Definition request_malformed_ttl : Request :=
  request_on 1 alice (VDict {[ "ttl" := VStr "abc" ]}) ∅.

Definition data_override : gmap string value :=
  {[ "ttl" := VStr "3600"; "config" := VDict {[ "lr" := VStr "0.01" ]} ]}.

Definition request_override : Request := request_on 1 alice (VDict data_override) ∅.

Definition three_records : list value :=
  [VDict {[ "loss" := VStr "0.3" ]};
   VDict {[ "loss" := VStr "0.2" ]};
   VDict {[ "loss" := VStr "0.1" ]}].

Definition request_metrics : Request := request_on 1 alice (VList three_records) ∅.

Definition request_stop : Request := request_on 2 alice VNone ∅.

Definition request_conflict : Request :=
  request_on 1 alice VNone {[ "independent" := "true"; "group" := "1" ]}.

Definition request_empty_group : Request :=
  request_on 1 alice VNone {[ "independent" := "true"; "group" := EmptyString ]}.

Definition data_zero_ttl : gmap string value := {[ "ttl" := VInt 0 ]}.

Definition request_zero_ttl : Request := request_on 1 alice (VDict data_zero_ttl) ∅.

Definition sample_serializer : ExperimentCreateSerializer :=
  {| validated_config := VDict {[ "lr" := VStr "0.1" ]};
     validated_declarations := VNone;
     validated_description := VNone;
     validated_group := None;
     validated_code_reference := None |}.

(** ** Vocabulary of the statements *)

Definition live (st : option string) : Prop :=
  st ∈ [Some SCHEDULED; Some STARTING; Some RUNNING].

Definition with_scope (request : Request) (presented : option (list string)) : Request :=
  {| user := {| user_id := user_id (user request);
                username := username (user request);
                scope := presented |};
     data := data request;
     query_params := query_params request;
     kwargs_id := kwargs_id request;
     kwargs_experiment_id := kwargs_experiment_id request |}.

Definition requested_update_code `{Collaborators} (d : gmap string value) : exn + bool :=
  if dict_contains d "update_code" then to_bool (dict_get d "update_code")
  else inr false.

Definition requested_description (d : gmap string value) : value :=
  if dict_contains d "description" then dict_get d "description" else VNone.

Definition trigger (strategy : CloningStrategy) (request : Request)
    (obj : Experiment) : Effect :=
  Recorded (event_type strategy) (OfExperiment (exp_id obj))
           (Some (user_id (user request))) (Some (username (user request))).

Definition store_ttl (ttl : value) (id : nat) (w : World) : World :=
  if truthy ttl then set_redis_ttl (λ m, <[id := ttl]> m) w else w.

(** The ttl of the request passes the first step of the view: it is falsy,
    or the validator accepts it. *)
Definition ttl_accepted `{RedisTTL} (d : gmap string value) : Prop :=
  truthy (dict_get d TTL_KEY) = false ∨
  ∃ v, validate_ttl (dict_get d TTL_KEY) = inr v.

(** The value held in [ttl] after that step. *)
Definition ttl_after `{RedisTTL} (d : gmap string value) : value :=
  let ttl := dict_get d TTL_KEY in
  if truthy ttl
  then match validate_ttl ttl with inr v => v | inl _ => ttl end
  else ttl.

(** The three optional inputs, as [post] reads them. *)
Definition requested_config `{Collaborators} (d : gmap string value)
    (obj : Experiment) : exn + (option value * option value) :=
  if dict_contains d "config"
  then match validate_experiment_spec_config
               [parsed_data (specification obj); dict_get d "config"] true with
       | inr spec => inr (Some (parsed_data spec), Some (spec_declarations spec))
       | inl e => inl e
       end
  else inr (None, None).

(** Primary keys: a row is filed under its own id. *)
Definition keyed_by_id (w : World) : Prop :=
  ∀ id e, experiments w !! id = Some e → exp_id e = id.

(** The keyword arguments of the stop task. *)
Definition stop_kwargs `{Collaborators} (obj : Experiment) : gmap string value :=
  {[ "project_name" := VStr (unique_name (exp_project obj));
     "project_uuid" := VStr (hex (project_uuid (exp_project obj)));
     "experiment_name" := VStr (exp_unique_name obj);
     "experiment_uuid" := VStr (hex (exp_uuid obj));
     "experiment_group_name" :=
       match experiment_group obj with
       | Some group => VStr (eg_unique_name group)
       | None => VNone
       end;
     "experiment_group_uuid" :=
       match experiment_group obj with
       | Some group => VStr (hex (eg_uuid group))
       | None => VNone
       end;
     "specification" := exp_config obj;
     "update_status" := VBool true ]}.

(** The group named by a creation request passes the check of
    [perform_create]: it is falsy, or it is a group of the project. *)
Definition group_accepted `{Collaborators} (d : gmap string value)
    (project : Project) (w : World) : Prop :=
  truthy (dict_get d "experiment_group") = false ∨
  ∃ id g, id_to_python (dict_get d "experiment_group") = inr id ∧
          experiment_groups w !! id = Some g ∧
          eg_project g = project_id project.

(** A second deployment: ids arrive as decimal strings, as they do in a
    query string, and a metric must be an object. *)
Definition strict_collaborators : Collaborators := {|
  get_permissible_project := @get_permissible_project sample_collaborators;
  to_bool := @to_bool sample_collaborators;
  get_scope := @get_scope sample_collaborators;
  PROJECT_UNIQUE_NAME_FORMAT := @PROJECT_UNIQUE_NAME_FORMAT sample_collaborators;
  id_to_python v :=
    match v with
    | VInt n => inr (Z.to_nat n)
    | VStr (String a rest) =>
        from_option (λ n, inr (Z.to_nat n)) (inl ValueError)
                    (decimal (String a rest) 0)
    | _ => inl ValueError
    end;
  filter_backends := @filter_backends sample_collaborators;
  specification := @specification sample_collaborators;
  spec_schema_ok := @spec_schema_ok sample_collaborators;
  spec_read_declarations := @spec_read_declarations sample_collaborators;
  generate_key := @generate_key sample_collaborators;
  new_uuid := @new_uuid sample_collaborators;
  new_unique_name := @new_unique_name sample_collaborators;
  current_code_reference := @current_code_reference sample_collaborators;
  serializer_data := @serializer_data sample_collaborators;
  metric_is_valid v :=
    match v with
    | VDict _ => inr v
    | _ => inl (ValidationError "Invalid data. Expected a dictionary.")
    end;
  metric_serializer_data := @metric_serializer_data sample_collaborators
|}.

Definition request_independent : Request :=
  request_on 1 alice VNone {[ "independent" := "true" ]}.

Definition request_by_group : Request :=
  request_on 1 alice VNone {[ "group" := "1" ]}.


Definition both_experiments : list Experiment :=
  [experiment_with 1 None (Some RUNNING);
   experiment_with 2 (Some sweep) (Some "succeeded")].

Definition data_foreign_group : gmap string value :=
  {[ "ttl" := VStr "3600"; "experiment_group" := VInt 9 ]}.

Definition request_foreign_group : Request :=
  request_on 1 alice (VDict data_foreign_group) ∅.

Definition data_ttl_text_zero : gmap string value := {[ "ttl" := VStr "0" ]}.

Definition request_ttl_text_zero : Request :=
  request_on 1 alice (VDict data_ttl_text_zero) ∅.

Definition data_ttl_hour : gmap string value := {[ "ttl" := VStr "3600" ]}.

Definition request_ttl_hour : Request := request_on 1 alice (VDict data_ttl_hour) ∅.

Definition data_bad_update_code : gmap string value :=
  {[ "update_code" := VStr "maybe" ]}.

Definition request_bad_update_code : Request :=
  request_on 1 alice (VDict data_bad_update_code) ∅.

Definition request_missing : Request :=
  request_on 99 alice (VDict ∅) ∅.

Definition one_metric : value := VDict {[ "loss" := VStr "0.3" ]}.

Definition request_one_metric : Request := request_on 1 alice one_metric ∅.

Definition request_bad_metric : Request := request_on 99 alice (VStr "loss") ∅.

Definition request_metrics_missing : Request :=
  request_on 99 alice (VList three_records) ∅.

Definition request_scope_missing : Request :=
  request_on 99 (worker (Some ["experiment:99"])) VNone ∅.

Definition request_flags : Request :=
  request_on 1 alice VNone {[ "metrics" := "true"; "declarations" := "perhaps" ]}.

Definition jobs_sample : ProjectJobs :=
  {| notebook_jobs := [];
     tensorboard_jobs :=
       [ {| tb_id := 1; tb_experiment := None; tb_experiment_group := None;
            tb_is_running := true |};
         {| tb_id := 2; tb_experiment := None; tb_experiment_group := None;
            tb_is_running := false |};
         {| tb_id := 3; tb_experiment := Some 1; tb_experiment_group := None;
            tb_is_running := true |} ] |}.

(** The world with more journal entries, and the entries the listing adds. *)
Definition journal_add (added : list Effect) (w : World) : World :=
  {| experiments := experiments w;
     experiment_groups := experiment_groups w;
     experiment_metrics := experiment_metrics w;
     tokens := tokens w;
     redis_ttl := redis_ttl w;
     journal := journal w ++ added |}.

Definition project_viewed (request : Request) (project : Project) : Effect :=
  Recorded PROJECT_EXPERIMENTS_VIEWED (OfProject (project_id project))
           (Some (user_id (user request))) (Some (username (user request))).

Definition group_viewed (request : Request) (group : ExperimentGroup) : Effect :=
  Recorded EXPERIMENT_GROUP_EXPERIMENTS_VIEWED (OfExperimentGroup (eg_id group))
           (Some (user_id (user request))) (Some (username (user request))).

Definition in_project (project : Project) (queryset : list Experiment)
    : list Experiment :=
  filter (λ e, project_id (exp_project e) = project_id project) queryset.

Definition is_view_record (e : Effect) : Prop :=
  ∃ instance actor_id actor_name,
    e = Recorded PROJECT_EXPERIMENTS_VIEWED instance actor_id actor_name ∨
    e = Recorded EXPERIMENT_GROUP_EXPERIMENTS_VIEWED instance actor_id actor_name.

(** The group of a listing request is not one of the project's groups. *)
Definition group_unknown (w : World) (project : Project) (id : nat) : Prop :=
  experiment_groups w !! id = None ∨
  ∃ g, experiment_groups w !! id = Some g ∧ eg_project g ≠ project_id project.

(** A tensorboard job of the project itself. *)
Definition project_level (job : TensorboardJob) : Prop :=
  tb_experiment job = None ∧ tb_experiment_group job = None.

(** * Properties *)

(** ** The order behind [sorted] *)

#[global] Instance str_le_trans : Transitive str_le.
Proof.
  intros a b c. unfold str_le, String.leb.
  destruct (String.compare a b) eqn:Hab; [| | done].
  - apply String.compare_eq_iff in Hab as ->. done.
  - destruct (String.compare b c) eqn:Hbc; [| | done].
    + apply String.compare_eq_iff in Hbc as <-. by rewrite Hab.
    + intros _ _.
      assert (String_as_OT.cmp a c = Lt) as Hac.
      { apply String_as_OT.cmp_lt.
        eapply String_as_OT.lt_trans; apply String_as_OT.cmp_lt; eassumption. }
      unfold String_as_OT.cmp in Hac. by rewrite Hac.
Qed.

#[global] Instance str_le_total : Total str_le.
Proof. intros a b. apply String.leb_total. Qed.

#[global] Instance str_le_antisym : AntiSymm (=) str_le.
Proof. intros a b. apply String.leb_antisym. Qed.

Lemma sorted_Permutation (l : list string) : sorted l ≡ₚ l.
Proof. apply merge_sort_Permutation. Qed.

(** Two lists sort to the same list exactly when one is a rearrangement
    of the other. *)
Lemma sorted_eq_iff (l1 l2 : list string) : sorted l1 = sorted l2 ↔ l1 ≡ₚ l2.
Proof.
  split.
  - intros Heq. rewrite <- (sorted_Permutation l1), Heq. apply sorted_Permutation.
  - intros Hperm. apply (Sorted_unique str_le).
    + apply Sorted_merge_sort, _.
    + apply Sorted_merge_sort, _.
    + by rewrite !sorted_Permutation.
Qed.

Lemma Permutation_same_elements (l1 l2 : list string) :
  l1 ≡ₚ l2 → ∀ x, x ∈ l1 ↔ x ∈ l2.
Proof. intros Hperm x. by rewrite Hperm. Qed.

(** ** Running the monad *)

Lemma bind_inr {A B : Type} (m : M A) (f : A → M B) (w w' : World) (a : A) :
  m w = (inr a, w') → (m ≫= f) w = f a w'.
Proof. intros Hm. unfold mbind, M_bind. by rewrite Hm. Qed.

Lemma bind_inl {A B : Type} (m : M A) (f : A → M B) (w w' : World) (e : exn) :
  m w = (inl e, w') → (m ≫= f) w = (inl e, w').
Proof. intros Hm. unfold mbind, M_bind. by rewrite Hm. Qed.

Ltac run :=
  repeat (progress (unfold mbind, mret, M_bind, M_ret, lift, raise, get_world,
                      modify, auditor_record, send_task, log in *;
                    cbn beta iota in *)).

(** What the scope-token view does once the experiment is found and live. *)
Lemma scope_token_post_live `{Collaborators} (request : Request) (w : World)
    (presented : list string) (experiment : Experiment) :
  scope (user request) = Some presented →
  experiments w !! kwargs_id request = Some experiment →
  live (last_status experiment) →
  ExperimentScopeTokenView_post request w =
    if bool_decide (sorted presented ≠
                    sorted (get_scope (user_id (exp_user experiment)) "experiment"
                                      (exp_id experiment)))
    then (inr forbidden, w)
    else ('(token, _) ← Token_get_or_create (exp_user experiment);
          mret {| status := HTTP_200_OK;
                  body := VDict {[ "token" := VStr (key token) ]} |}) w.
Proof.
  intros Hscope Hobj Hlive. unfold ExperimentScopeTokenView_post.
  rewrite Hscope. unfold get_object_by_id. run. rewrite Hobj.
  rewrite (bool_decide_eq_true_2 _ Hlive). cbn [negb].
  by case_bool_decide.
Qed.

(** [get_or_create] never answers with the forbidden response. *)
Lemma token_response_not_forbidden `{Collaborators} (u : User) (w : World) :
  fst (('(token, _) ← Token_get_or_create u;
        mret {| status := HTTP_200_OK;
                body := VDict {[ "token" := VStr (key token) ]} |}) w)
  ≠ inr forbidden.
Proof.
  unfold Token_get_or_create. run.
  destruct (filter _ (tokens w)) as [|t [|t' rest]]; run;
    unfold forbidden, HTTP_200_OK, HTTP_403_FORBIDDEN; cbn; discriminate.
Qed.

(** ** Scope validation *)

(** The verdict of the comparison, for a caller that presents a scope list
    on a live experiment. *)
Lemma scope_verdict `{Collaborators} (request : Request) (w : World)
    (presented : list string) (experiment : Experiment) :
  scope (user request) = Some presented →
  experiments w !! kwargs_id request = Some experiment →
  live (last_status experiment) →
  let stored := get_scope (user_id (exp_user experiment)) "experiment"
                          (exp_id experiment) in
  let out := ExperimentScopeTokenView_post request w in
  (presented ≡ₚ stored → fst out ≠ inr forbidden) ∧
  (¬ presented ≡ₚ stored → out = (inr forbidden, w)).
Proof.
  intros Hscope Hobj Hlive stored out. subst out.
  rewrite (scope_token_post_live _ _ _ _ Hscope Hobj Hlive). split.
  - intros Hperm. rewrite bool_decide_eq_false_2.
    + apply token_response_not_forbidden.
    + intros Hne. apply Hne. by apply sorted_eq_iff.
  - intros Hperm. rewrite bool_decide_eq_true_2; [done |].
    intros Heq. by apply Hperm, sorted_eq_iff.
Qed.

(** C1, as amended.  For a caller that presents a scope list, on a live
    experiment, validation passes exactly when the presented list is a
    rearrangement of the stored list (equal as multisets: order is
    irrelevant, multiplicity is not); otherwise the answer is the forbidden
    response and nothing changes.  On duplicate-free lists this is equality
    as sets. *)
Theorem scope_validation_iff_rearrangement `{Collaborators}
    (request : Request) (w : World) (presented : list string)
    (experiment : Experiment) :
  scope (user request) = Some presented →
  experiments w !! kwargs_id request = Some experiment →
  live (last_status experiment) →
  let stored := get_scope (user_id (exp_user experiment)) "experiment"
                          (exp_id experiment) in
  let out := ExperimentScopeTokenView_post request w in
  (presented ≡ₚ stored → fst out ≠ inr forbidden) ∧
  (¬ presented ≡ₚ stored → out = (inr forbidden, w)) ∧
  (NoDup presented → NoDup stored →
   (fst out ≠ inr forbidden ↔ ∀ x, x ∈ presented ↔ x ∈ stored)).
Proof.
  intros Hscope Hobj Hlive stored out.
  destruct (scope_verdict request w presented experiment Hscope Hobj Hlive)
    as [Hpass Hdeny].
  fold stored out in Hpass, Hdeny.
  split_and!; [done | done |].
  intros Hnd1 Hnd2. split.
  - intros Hout. apply Permutation_same_elements.
    destruct (decide (presented ≡ₚ stored)) as [|Hn]; [done |].
    rewrite (Hdeny Hn) in Hout. by destruct Hout.
  - intros Hset. apply Hpass. by apply NoDup_Permutation.
Qed.

(** C1: the claim as stated fails.  The presented list repeats a capability
    the stored list holds once: the two are equal as sets, and the request is
    forbidden. *)
Lemma scope_set_equal_rejected :
  scope (user request_duplicated) = Some ["experiment:3"; "experiment:3"] ∧
  get_scope 1 "experiment" 3 = ["experiment:3"] ∧
  (∀ x : string, x ∈ ["experiment:3"; "experiment:3"] ↔ x ∈ ["experiment:3"]) ∧
  ExperimentScopeTokenView_post request_duplicated sample_world
  = (inr forbidden, sample_world).
Proof.
  split_and!; [reflexivity | reflexivity | |].
  - intros x. rewrite !elem_of_cons, elem_of_nil. tauto.
  - vm_compute. reflexivity.
Qed.

Lemma scope_validation_iff_rearrangement_witness :
  (["experiment:1"; "username:alice"] ≡ₚ ["username:alice"; "experiment:1"] →
   fst (ExperimentScopeTokenView_post request_rearranged sample_world)
   ≠ inr forbidden) ∧
  (¬ ["experiment:1"; "username:alice"] ≡ₚ ["username:alice"; "experiment:1"] →
   ExperimentScopeTokenView_post request_rearranged sample_world
   = (inr forbidden, sample_world)) ∧
  (NoDup ["experiment:1"; "username:alice"] →
   NoDup ["username:alice"; "experiment:1"] →
   (fst (ExperimentScopeTokenView_post request_rearranged sample_world)
    ≠ inr forbidden ↔
    ∀ x : string, x ∈ ["experiment:1"; "username:alice"]
                  ↔ x ∈ ["username:alice"; "experiment:1"])).
Proof.
  refine (scope_validation_iff_rearrangement request_rearranged sample_world
            ["experiment:1"; "username:alice"]
            (experiment_with 1 None (Some RUNNING)) _ _ _).
  - reflexivity.
  - vm_compute. reflexivity.
  - unfold live. apply (bool_decide_unpack _). vm_compute. exact I.
Defined.

(** C2.  A caller without a grant (its scope is absent) is denied, and
    nothing changes, whatever the stored scope is.  In particular it is
    denied where the stored scope is empty and the experiment is live: there
    the same request carrying an explicit scope is accepted exactly when that
    scope is the empty list.  The test for an absent scope is the only thing
    that tells the two apart. *)
Theorem absent_grant_denied `{Collaborators} (request : Request) (w : World) :
  scope (user request) = None →
  ExperimentScopeTokenView_post request w = (inr forbidden, w) ∧
  ∀ (experiment : Experiment) (presented : list string),
    experiments w !! kwargs_id request = Some experiment →
    live (last_status experiment) →
    get_scope (user_id (exp_user experiment)) "experiment" (exp_id experiment) = [] →
    let out := ExperimentScopeTokenView_post (with_scope request (Some presented)) w in
    (presented = [] → fst out ≠ inr forbidden) ∧
    (presented ≠ [] → out = (inr forbidden, w)).
Proof.
  intros Hnone. split.
  - unfold ExperimentScopeTokenView_post. by rewrite Hnone.
  - intros experiment presented Hobj Hlive Hstored out.
    destruct (scope_verdict (with_scope request (Some presented)) w presented
                experiment eq_refl Hobj Hlive) as [Hpass Hdeny].
    rewrite Hstored in Hpass, Hdeny. split.
    + intros ->. by apply Hpass.
    + intros Hne. apply Hdeny. intros Hperm. by apply Permutation_nil_r in Hperm.
Qed.

Lemma absent_grant_denied_witness :
  ExperimentScopeTokenView_post request_no_grant sample_world
  = (inr forbidden, sample_world) ∧
  fst (ExperimentScopeTokenView_post (with_scope request_no_grant (Some []))
         sample_world)
  ≠ inr forbidden.
Proof.
  destruct (absent_grant_denied request_no_grant sample_world eq_refl)
    as [Hdenied Hexplicit].
  split; [exact Hdenied |].
  apply (Hexplicit (experiment_with 4 None (Some SCHEDULED)) []).
  - vm_compute. reflexivity.
  - unfold live. apply (bool_decide_unpack _). vm_compute. exact I.
  - reflexivity.
  - reflexivity.
Defined.

(** C3.  When the experiment's last status is none of scheduled, starting
    and running, the answer is the forbidden response and nothing changes,
    whatever scope the caller presents. *)
Theorem not_live_forbidden `{Collaborators} (request : Request) (w : World)
    (experiment : Experiment) :
  experiments w !! kwargs_id request = Some experiment →
  ¬ live (last_status experiment) →
  ExperimentScopeTokenView_post request w = (inr forbidden, w).
Proof.
  intros Hobj Hdead. unfold ExperimentScopeTokenView_post.
  destruct (scope (user request)); [| done].
  unfold get_object_by_id. run. rewrite Hobj.
  by rewrite (bool_decide_eq_false_2 _ Hdead).
Qed.

Lemma not_live_forbidden_witness :
  ExperimentScopeTokenView_post request_finished sample_world
  = (inr forbidden, sample_world).
Proof.
  apply (not_live_forbidden request_finished sample_world
           (experiment_with 2 (Some sweep) (Some "succeeded"))).
  - vm_compute. reflexivity.
  - unfold live. apply (bool_decide_eq_false_1 _). vm_compute. reflexivity.
Defined.

(** ** The durable credential *)

(** Under the one-to-one constraint of the token table, a user has at most
    one row. *)
Lemma one_token_per_user (rows : list Token) (uid : nat) :
  NoDup (token_user <$> rows) →
  (length (filter (λ t, token_user t = uid) rows) ≤ 1)%nat.
Proof.
  induction rows as [|t rows IH]; intros Hnd; [cbn; lia |].
  rewrite fmap_cons in Hnd. apply NoDup_cons in Hnd as [Hfresh Hnd].
  rewrite filter_cons. case_decide as Hu.
  - destruct (filter (λ t, token_user t = uid) rows) as [|t' rest] eqn:Hrest;
      [cbn; lia |].
    exfalso. apply Hfresh.
    assert (t' ∈ filter (λ t, token_user t = uid) rows) as Hin
      by (rewrite Hrest; left).
    apply list_elem_of_filter in Hin as [Hu' Hin].
    rewrite Hu, <- Hu'. by apply list_elem_of_fmap_2.
  - by apply IH.
Qed.

(** C4.  When validation has passed (the caller presented a scope, the
    experiment is live and the two sorted lists are equal), the view answers
    200 with the key of a token of the experiment's user, on whose behalf the
    caller acts.  Afterwards that user has exactly one token.  A token the
    user already had is the one returned and the world is untouched; only
    when the user had none is one row added. *)
Theorem token_reused_or_created_once `{Collaborators} (request : Request)
    (w : World) (presented : list string) (experiment : Experiment) :
  scope (user request) = Some presented →
  experiments w !! kwargs_id request = Some experiment →
  live (last_status experiment) →
  sorted presented = sorted (get_scope (user_id (exp_user experiment)) "experiment"
                                       (exp_id experiment)) →
  NoDup (token_user <$> tokens w) →
  let owner := user_id (exp_user experiment) in
  let out := ExperimentScopeTokenView_post request w in
  ∃ token : Token,
    fst out = inr {| status := HTTP_200_OK;
                     body := VDict {[ "token" := VStr (key token) ]} |} ∧
    token_user token = owner ∧
    filter (λ t, token_user t = owner) (tokens (snd out)) = [token] ∧
    NoDup (token_user <$> tokens (snd out)) ∧
    (∀ t, t ∈ tokens w → token_user t = owner → token = t ∧ snd out = w) ∧
    ((∀ t, t ∈ tokens w → token_user t ≠ owner) →
     key token = generate_key w ∧
     snd out = set_tokens (λ rows, rows ++ [token]) w).
Proof.
  intros Hscope Hobj Hlive Hsorted Hunique owner out. subst out.
  rewrite (scope_token_post_live _ _ _ _ Hscope Hobj Hlive).
  rewrite bool_decide_eq_false_2 by (intros Hne; by apply Hne).
  unfold Token_get_or_create. run. fold owner.
  pose proof (one_token_per_user (tokens w) owner Hunique) as Hone.
  destruct (filter (λ t, token_user t = owner) (tokens w))
    as [|t [|t' rest]] eqn:Hrows; [| | cbn in Hone; lia].
  - run. cbn [fst snd].
    eexists. split_and!; [reflexivity | reflexivity | | | |].
    + cbn. rewrite filter_app, Hrows, filter_cons_True by done. done.
    + cbn. rewrite fmap_app. apply NoDup_app. split_and!; [done | |].
      * intros u Hu Hin. apply list_elem_of_singleton in Hin. subst u.
        apply list_elem_of_fmap_1 in Hu as (t & Ht & Hin).
        eapply (filter_nil_not_elem_of _ _ t Hrows); [by symmetry | done].
      * apply NoDup_singleton.
    + intros t Hin Ht. exfalso.
      by eapply (filter_nil_not_elem_of _ _ t Hrows).
    + intros _. done.
  - run. cbn [fst snd].
    assert (t ∈ filter (λ t, token_user t = owner) (tokens w)) as Ht
      by (rewrite Hrows; left).
    apply list_elem_of_filter in Ht as [Ht Hin].
    exists t. split_and!; [reflexivity | done | done | done | |].
    + intros t' Hin' Ht'.
      assert (t' ∈ filter (λ t, token_user t = owner) (tokens w)) as Hf
        by (by apply list_elem_of_filter).
      rewrite Hrows in Hf. apply list_elem_of_singleton in Hf. by subst.
    + intros Hnone. by destruct (Hnone t Hin).
Qed.

Lemma token_reused_or_created_once_witness :
  ∃ token : Token,
    fst (ExperimentScopeTokenView_post request_rearranged sample_world)
    = inr {| status := HTTP_200_OK;
             body := VDict {[ "token" := VStr (key token) ]} |} ∧
    token_user token = 1 ∧
    filter (λ t, token_user t = 1)
           (tokens (snd (ExperimentScopeTokenView_post request_rearranged
                           sample_world)))
    = [token].
Proof.
  destruct (token_reused_or_created_once request_rearranged sample_world
              ["experiment:1"; "username:alice"]
              (experiment_with 1 None (Some RUNNING)))
    as (token & Hout & Huser & Hone & _).
  - reflexivity.
  - vm_compute. reflexivity.
  - unfold live. apply (bool_decide_unpack _). vm_compute. exact I.
  - vm_compute. reflexivity.
  - apply NoDup_nil_2.
  - exists token. split_and!; [exact Hout | exact Huser | exact Hone].
Defined.

(** ** Derivation: restart, resume, copy *)

Lemma ttl_step `{RedisTTL} (d : gmap string value) (w : World) :
  ttl_accepted d →
  (if truthy (dict_get d TTL_KEY) then try_validate_ttl (dict_get d TTL_KEY)
   else mret (dict_get d TTL_KEY)) w = (inr (ttl_after d), w).
Proof.
  unfold ttl_after, try_validate_ttl. intros [Hfalsy | [v Hv]].
  - by rewrite Hfalsy.
  - rewrite Hv. by destruct (truthy _).
Qed.

(** [post], step by step, once the ttl is accepted and the source found. *)
Lemma clone_post_steps `{RedisTTL, Collaborators} (strategy : CloningStrategy)
    (request : Request) (w : World) (d : gmap string value) (obj : Experiment) :
  data request = VDict d →
  ttl_accepted d →
  get_object request w = (inr obj, w) →
  ExperimentCloneView_post strategy request w =
    let w1 := snd (log (trigger strategy request obj) w) in
    match requested_config d obj with
    | inl e => (inl e, w1)
    | inr (config, declarations) =>
        match requested_update_code d with
        | inl e => (inl e, w1)
        | inr update_code_reference =>
            let created := derive strategy obj (user request) config declarations
                             update_code_reference (requested_description d) w1 in
            match fst created with
            | inl e => (inl e, snd created)
            | inr new_obj =>
                (inr {| status := HTTP_201_CREATED; body := serializer_data new_obj |},
                 store_ttl (ttl_after d) (exp_id new_obj) (snd created))
            end
        end
    end.
Proof.
  intros Hdata Httl Hobj. unfold ExperimentCloneView_post. rewrite Hdata.
  rewrite (bind_inr _ _ _ _ _ (ttl_step d w Httl)).
  rewrite (bind_inr _ _ _ _ _ Hobj).
  unfold requested_config, requested_update_code, requested_description,
    clone, derive, store_ttl, set_for_experiment, trigger.
  run. cbn [fst snd].
  destruct (dict_contains d "config").
  - destruct (validate_experiment_spec_config _ _) as [e | spec]; [done |].
    destruct (dict_contains d "update_code").
    + destruct (to_bool _) as [e | b]; [done |]. by destruct (truthy (ttl_after d)).
    + by destruct (truthy (ttl_after d)).
  - destruct (dict_contains d "update_code").
    + destruct (to_bool _) as [e | b]; [done |]. by destruct (truthy (ttl_after d)).
    + by destruct (truthy (ttl_after d)).
Qed.

(** The record [derive] inserts, and where. *)
Lemma derive_creates `{Collaborators} (strategy : CloningStrategy) (self : Experiment)
    (u : User) (config declarations : option value) (update_code_reference : bool)
    (description : value) (w : World) :
  ∃ new_obj : Experiment,
    derive strategy self u config declarations update_code_reference description w
    = (inr new_obj,
       snd (log (Created (OfExperiment (exp_id new_obj)))
                (set_experiments (λ m, <[exp_id new_obj := new_obj]> m) w))) ∧
    experiments w !! exp_id new_obj = None ∧
    exp_config new_obj = default (exp_config self) config ∧
    exp_declarations new_obj = default (exp_declarations self) declarations ∧
    exp_description new_obj = description ∧
    original_experiment new_obj = Some (exp_id self) ∧
    cloning_strategy new_obj = Some strategy.
Proof.
  unfold derive. run. cbn [fst snd].
  match goal with |- ∃ _, (inr ?x, _) = _ ∧ _ => exists x end.
  cbn. split_and!; try done.
  apply not_elem_of_dom, is_fresh.
Qed.

Lemma get_object_in_table `{Collaborators} (request : Request) (w w' : World)
    (obj : Experiment) :
  get_object request w = (inr obj, w') →
  experiments w !! kwargs_id request = Some obj.
Proof.
  unfold get_object, get_experiment_or_404. run.
  destruct (get_permissible_project request w); [done |].
  destruct (experiments w !! kwargs_id request); [| done].
  case_bool_decide; [| done]. by intros [= -> _].
Qed.

Lemma store_ttl_journal (ttl : value) (id : nat) (w : World) :
  journal (store_ttl ttl id w) = journal w.
Proof. unfold store_ttl. by destruct (truthy ttl). Qed.

Lemma store_ttl_experiments (ttl : value) (id : nat) (w : World) :
  experiments (store_ttl ttl id w) = experiments w.
Proof. unfold store_ttl. by destruct (truthy ttl). Qed.

(** C5, as amended.  For a restart, resume or copy request whose ttl is
    absent, falsy or accepted by the validator and whose source experiment
    is found, the triggered event of the view is recorded against the source,
    and it is the first effect of the request.  Either the request then
    fails and no experiment is created, or the creation of the derived
    experiment follows the record in the journal, under an id the table did
    not hold; no event is recorded against the derived experiment. *)
Theorem trigger_recorded_on_source_first `{RedisTTL, Collaborators}
    (strategy : CloningStrategy) (request : Request) (w : World)
    (d : gmap string value) (obj : Experiment) :
  data request = VDict d →
  ttl_accepted d →
  get_object request w = (inr obj, w) →
  keyed_by_id w →
  let out := ExperimentCloneView_post strategy request w in
  ∃ rest : list Effect,
    journal (snd out) = journal w ++ trigger strategy request obj :: rest ∧
    ((rest = [] ∧ experiments (snd out) = experiments w ∧ ∃ e, fst out = inl e) ∨
     (∃ new_obj : Experiment,
        rest = [Created (OfExperiment (exp_id new_obj))] ∧
        experiments w !! exp_id new_obj = None ∧
        experiments (snd out) = <[exp_id new_obj := new_obj]> (experiments w) ∧
        original_experiment new_obj = Some (exp_id obj) ∧
        fst out = inr {| status := HTTP_201_CREATED;
                         body := serializer_data new_obj |} ∧
        ∀ event actor_id actor_name,
          Recorded event (OfExperiment (exp_id new_obj)) actor_id actor_name
          ∉ trigger strategy request obj :: rest)).
Proof.
  intros Hdata Httl Hobj Hkeys out. subst out.
  rewrite (clone_post_steps strategy request w d obj Hdata Httl Hobj). cbn zeta.
  destruct (requested_config d obj) as [e | [config declarations]].
  { exists []. split; [done |]. left. split_and!; [done | done | by exists e]. }
  destruct (requested_update_code d) as [e | update_code_reference].
  { exists []. split; [done |]. left. split_and!; [done | done | by exists e]. }
  destruct (derive_creates strategy obj (user request) config declarations
              update_code_reference (requested_description d)
              (snd (log (trigger strategy request obj) w)))
    as (new_obj & -> & Hfresh & _ & _ & _ & Horigin & _).
  cbn in Hfresh. cbn [fst snd].
  exists [Created (OfExperiment (exp_id new_obj))]. split.
  { rewrite store_ttl_journal. cbn. by rewrite <- app_assoc. }
  right. exists new_obj. split_and!; try done.
  - by rewrite store_ttl_experiments.
  - intros event actor_id actor_name Hin.
    apply elem_of_cons in Hin as [Heq | Hin].
    + unfold trigger in Heq. injection Heq as _ Hid _ _.
      apply get_object_in_table in Hobj.
      pose proof (Hkeys _ _ Hobj) as Hk.
      rewrite Hid, Hk, Hobj in Hfresh. discriminate.
    + apply list_elem_of_singleton in Hin. discriminate.
Qed.

(** A truthy ttl the validator rejects with [ValueError] ends the request
    before the source is looked up: nothing is recorded. *)
Lemma rejected_ttl_records_nothing `{RedisTTL, Collaborators}
    (strategy : CloningStrategy) (request : Request) (w : World)
    (d : gmap string value) :
  data request = VDict d →
  truthy (dict_get d TTL_KEY) = true →
  validate_ttl (dict_get d TTL_KEY) = inl ValueError →
  ExperimentCloneView_post strategy request w
  = (inl (ValidationError "ttl must be an integer."), w).
Proof.
  intros Hdata Htruthy Hrejected. unfold ExperimentCloneView_post.
  rewrite Hdata, Htruthy. unfold try_validate_ttl. by rewrite Hrejected.
Qed.

(** C5: the claim as stated fails.  A restart request on an existing
    experiment with a malformed ttl is rejected before anything is recorded. *)
Lemma malformed_ttl_records_nothing :
  get_object request_malformed_ttl sample_world
  = (inr (experiment_with 1 None (Some RUNNING)), sample_world) ∧
  ExperimentRestartView_post request_malformed_ttl sample_world
  = (inl (ValidationError "ttl must be an integer."), sample_world) ∧
  journal (snd (ExperimentRestartView_post request_malformed_ttl sample_world))
  = [].
Proof.
  split_and!; vm_compute; reflexivity.
Qed.

Lemma sample_world_keyed : keyed_by_id sample_world.
Proof.
  change (map_Forall (λ id e, exp_id e = id) (experiments sample_world)).
  apply (bool_decide_unpack _). vm_compute. exact I.
Qed.

Lemma trigger_recorded_on_source_first_witness :
  ∃ rest : list Effect,
    journal (snd (ExperimentCloneView_post RESTART request_override sample_world))
    = journal sample_world
      ++ trigger RESTART request_override (experiment_with 1 None (Some RUNNING))
         :: rest.
Proof.
  destruct (trigger_recorded_on_source_first RESTART request_override sample_world
              data_override (experiment_with 1 None (Some RUNNING)))
    as (rest & Hjournal & _).
  - reflexivity.
  - right. exists (VInt 3600). vm_compute. reflexivity.
  - vm_compute. reflexivity.
  - exact sample_world_keyed.
  - exists rest. exact Hjournal.
Defined.

(** How two configurations merge: the override wins on its keys, the base
    supplies the others. *)
Lemma merge_configs_pair (base over : gmap string value) (k : string) :
  merge_configs [base; over] !! k =
    match over !! k with
    | Some v => Some v
    | None => base !! k
    end.
Proof.
  unfold merge_configs. cbn. rewrite !lookup_union, lookup_empty.
  destruct (over !! k), (base !! k); done.
Qed.

(** The validator, on a pair: it answers only for two dictionaries whose
    merge passes the schema, and fails with a REST validation error
    otherwise. *)
Lemma validate_pair `{Collaborators} (v1 v2 : value) :
  match validate_experiment_spec_config [v1; v2] true with
  | inr spec =>
      ∃ base over, v1 = VDict base ∧ v2 = VDict over ∧
        parsed_data spec = VDict (merge_configs [base; over]) ∧
        spec_declarations spec = spec_read_declarations (merge_configs [base; over])
  | inl e => ∃ detail, e = ValidationError detail
  end.
Proof.
  unfold validate_experiment_spec_config.
  destruct v1, v2; cbn; eauto.
  destruct (spec_schema_ok _); cbn; eauto 10.
Qed.

(** C6.  A derivation request that carries a [config], and is otherwise in
    order, hands the ordered pair of the source's parsed specification and
    that [config] to the validator.  When the validator answers, the pair was
    two dictionaries, its answer is their merge in which the override wins
    on every key it holds, and the derived experiment is created with that
    merge as its configuration.  When the validator fails, the request fails
    with the validator's [ValidationError] and no experiment is created: the
    source's specification is not used instead. *)
Theorem override_config_validated `{RedisTTL, Collaborators}
    (strategy : CloningStrategy) (request : Request) (w : World)
    (d : gmap string value) (obj : Experiment) (override : value) :
  data request = VDict d →
  d !! "config" = Some override →
  ttl_accepted d →
  get_object request w = (inr obj, w) →
  (∃ b, requested_update_code d = inr b) →
  let out := ExperimentCloneView_post strategy request w in
  match validate_experiment_spec_config
          [parsed_data (specification obj); override] true with
  | inr spec =>
      (∃ base over : gmap string value,
         parsed_data (specification obj) = VDict base ∧
         override = VDict over ∧
         parsed_data spec = VDict (merge_configs [base; over]) ∧
         ∀ k, merge_configs [base; over] !! k =
                match over !! k with Some v => Some v | None => base !! k end) ∧
      (∃ new_obj : Experiment,
         fst out = inr {| status := HTTP_201_CREATED;
                          body := serializer_data new_obj |} ∧
         experiments w !! exp_id new_obj = None ∧
         experiments (snd out) !! exp_id new_obj = Some new_obj ∧
         exp_config new_obj = parsed_data spec ∧
         exp_declarations new_obj = spec_declarations spec)
  | inl e =>
      (∃ detail, e = ValidationError detail) ∧
      fst out = inl e ∧
      experiments (snd out) = experiments w
  end.
Proof.
  intros Hdata Hconfig Httl Hobj [b Hupdate] out. subst out.
  rewrite (clone_post_steps strategy request w d obj Hdata Httl Hobj). cbn zeta.
  unfold requested_config, dict_contains, dict_get.
  rewrite Hconfig, bool_decide_eq_true_2 by eauto. cbn [default].
  pose proof (validate_pair (parsed_data (specification obj)) override) as Hpair.
  destruct (validate_experiment_spec_config _ _) as [e | spec].
  { split_and!; done. }
  rewrite Hupdate.
  destruct Hpair as (base & over & Hbase & Hover & Hparsed & _). split.
  { exists base, over. split_and!; try done. apply merge_configs_pair. }
  destruct (derive_creates strategy obj (user request) (Some (parsed_data spec))
              (Some (spec_declarations spec)) b (requested_description d)
              (snd (log (trigger strategy request obj) w)))
    as (new_obj & -> & Hfresh & Hcfg & Hdecl & _).
  cbn in Hfresh. cbn [fst snd]. exists new_obj. split_and!; try done.
  rewrite store_ttl_experiments. cbn. apply lookup_insert_eq.
Qed.

Lemma override_config_validated_witness :
  ∃ new_obj : Experiment,
    fst (ExperimentCloneView_post RESTART request_override sample_world)
    = inr {| status := HTTP_201_CREATED; body := serializer_data new_obj |} ∧
    experiments (snd (ExperimentCloneView_post RESTART request_override sample_world))
      !! exp_id new_obj = Some new_obj ∧
    exp_config new_obj = VDict {[ "lr" := VStr "0.01" ]}.
Proof.
  pose proof (override_config_validated RESTART request_override sample_world
                data_override (experiment_with 1 None (Some RUNNING))
                (VDict {[ "lr" := VStr "0.01" ]})) as Hclaim.
  cbn zeta in Hclaim.
  replace (validate_experiment_spec_config _ _)
    with (inr (A := exn) {| parsed_data := VDict {[ "lr" := VStr "0.01" ]};
                 spec_declarations := VDict {[ "lr" := VStr "0.01" ]} |})
    in Hclaim by (vm_compute; reflexivity).
  destruct Hclaim as [_ (new_obj & Hout & _ & Hin & Hcfg & _)].
  - reflexivity.
  - vm_compute. reflexivity.
  - right. exists (VInt 3600). vm_compute. reflexivity.
  - vm_compute. reflexivity.
  - exists false. vm_compute. reflexivity.
  - exists new_obj. split_and!; [exact Hout | exact Hin | exact Hcfg].
Defined.

(** ** Commands sent to the workers *)

(** C7.  When the payload of a metrics submission is a list and the target
    experiment is found, no metric row is written and exactly one effect is
    added to the journal: the send of the set-metrics task, whose keyword
    arguments are the experiment's id and the whole list as received.  The
    rest of the world is untouched and the answer is 201. *)
Theorem metrics_list_enqueued `{Collaborators} (request : Request) (w : World)
    (records : list value) (experiment : Experiment) :
  data request = VList records →
  get_experiment request w = (inr experiment, w) →
  let out := ExperimentMetricListView_create request w in
  let kwargs : gmap string value :=
    {[ "experiment_id" := VInt (Z.of_nat (exp_id experiment));
       "data" := VList records ]} in
  fst out = inr {| status := HTTP_201_CREATED; body := VNone |} ∧
  experiment_metrics (snd out) = experiment_metrics w ∧
  journal (snd out) = journal w ++ [Sent EXPERIMENTS_SET_METRICS kwargs] ∧
  kwargs !! "experiment_id" = Some (VInt (Z.of_nat (exp_id experiment))) ∧
  kwargs !! "data" = Some (VList records) ∧
  experiments (snd out) = experiments w ∧
  tokens (snd out) = tokens w ∧
  redis_ttl (snd out) = redis_ttl w.
Proof.
  intros Hdata Hexp out kwargs. subst out kwargs.
  unfold ExperimentMetricListView_create. rewrite Hdata.
  rewrite (bind_inr _ _ _ _ _ Hexp). run. cbn [fst snd].
  split_and!; try done.
Qed.

Lemma metrics_list_enqueued_witness :
  fst (ExperimentMetricListView_create request_metrics sample_world)
  = inr {| status := HTTP_201_CREATED; body := VNone |} ∧
  experiment_metrics (snd (ExperimentMetricListView_create request_metrics
                             sample_world)) = [] ∧
  journal (snd (ExperimentMetricListView_create request_metrics sample_world))
  = [Sent EXPERIMENTS_SET_METRICS
          {[ "experiment_id" := VInt 1; "data" := VList three_records ]}].
Proof.
  destruct (metrics_list_enqueued request_metrics sample_world three_records
              (experiment_with 1 None (Some RUNNING)))
    as (Hout & Hrows & Hjournal & _).
  - reflexivity.
  - vm_compute. reflexivity.
  - split_and!; [exact Hout | exact Hrows | exact Hjournal].
Defined.

Lemma stop_kwargs_lookup `{Collaborators} (obj : Experiment) :
  let kwargs := stop_kwargs obj in
  kwargs !! "project_name" = Some (VStr (unique_name (exp_project obj))) ∧
  kwargs !! "project_uuid" = Some (VStr (hex (project_uuid (exp_project obj)))) ∧
  kwargs !! "experiment_name" = Some (VStr (exp_unique_name obj)) ∧
  kwargs !! "experiment_uuid" = Some (VStr (hex (exp_uuid obj))) ∧
  kwargs !! "experiment_group_name" =
    Some (match experiment_group obj with
          | Some group => VStr (eg_unique_name group)
          | None => VNone
          end) ∧
  kwargs !! "experiment_group_uuid" =
    Some (match experiment_group obj with
          | Some group => VStr (hex (eg_uuid group))
          | None => VNone
          end) ∧
  kwargs !! "specification" = Some (exp_config obj) ∧
  kwargs !! "update_status" = Some (VBool true) ∧
  size kwargs = 8.
Proof.
  cbn zeta. unfold stop_kwargs. split_and!;
    try (repeat (rewrite lookup_insert; case_decide; [subst; try done | ]);
         try done; by rewrite lookup_singleton_eq).
Qed.

Lemma stop_post_steps `{Collaborators} (request : Request) (w : World)
    (obj : Experiment) :
  get_object request w = (inr obj, w) →
  ExperimentStopView_post request w =
    (inr {| status := HTTP_200_OK; body := VNone |},
     snd (log (Sent EXPERIMENTS_STOP (stop_kwargs obj))
            (snd (log (Recorded EXPERIMENT_STOPPED_TRIGGERED
                         (OfExperiment (exp_id obj))
                         (Some (user_id (user request)))
                         (Some (username (user request)))) w)))).
Proof.
  intros Hobj. unfold ExperimentStopView_post.
  rewrite (bind_inr _ _ _ _ _ Hobj). unfold stop_kwargs.
  destruct (experiment_group obj); reflexivity.
Qed.

(** C8.  A stop request on an experiment that is found records the
    stop-triggered event against it and then sends one stop task.  The task
    carries the project's name and uuid, the experiment's name and uuid, the
    group's name and uuid when the experiment has a group and [None] for both
    when it has none, the experiment's configuration as the specification,
    and [update_status] set; it carries nothing else.  Nothing else in the
    world changes and the answer is 200. *)
Theorem stop_recorded_and_dispatched `{Collaborators} (request : Request)
    (w : World) (obj : Experiment) :
  get_object request w = (inr obj, w) →
  let out := ExperimentStopView_post request w in
  let kwargs := stop_kwargs obj in
  fst out = inr {| status := HTTP_200_OK; body := VNone |} ∧
  journal (snd out) =
    journal w ++
      [Recorded EXPERIMENT_STOPPED_TRIGGERED (OfExperiment (exp_id obj))
                (Some (user_id (user request))) (Some (username (user request)));
       Sent EXPERIMENTS_STOP kwargs] ∧
  kwargs !! "project_name" = Some (VStr (unique_name (exp_project obj))) ∧
  kwargs !! "project_uuid" = Some (VStr (hex (project_uuid (exp_project obj)))) ∧
  kwargs !! "experiment_name" = Some (VStr (exp_unique_name obj)) ∧
  kwargs !! "experiment_uuid" = Some (VStr (hex (exp_uuid obj))) ∧
  (∀ group, experiment_group obj = Some group →
     kwargs !! "experiment_group_name" = Some (VStr (eg_unique_name group)) ∧
     kwargs !! "experiment_group_uuid" = Some (VStr (hex (eg_uuid group)))) ∧
  (experiment_group obj = None →
     kwargs !! "experiment_group_name" = Some VNone ∧
     kwargs !! "experiment_group_uuid" = Some VNone) ∧
  kwargs !! "specification" = Some (exp_config obj) ∧
  kwargs !! "update_status" = Some (VBool true) ∧
  size kwargs = 8 ∧
  experiments (snd out) = experiments w ∧
  experiment_metrics (snd out) = experiment_metrics w ∧
  tokens (snd out) = tokens w ∧
  redis_ttl (snd out) = redis_ttl w.
Proof.
  intros Hobj out kwargs.
  destruct (stop_kwargs_lookup obj)
    as (Hpn & Hpu & Hen & Heu & Hgn & Hgu & Hspec & Hupd & Hsize).
  fold kwargs in Hpn, Hpu, Hen, Heu, Hgn, Hgu, Hspec, Hupd, Hsize.
  subst out. rewrite (stop_post_steps request w obj Hobj). fold kwargs.
  clearbody kwargs. unfold log.
  cbn [fst snd experiments experiment_metrics tokens redis_ttl journal].
  split_and!; try assumption; try reflexivity.
  - by rewrite <- app_assoc.
  - intros group Hgroup. rewrite Hgn, Hgu, Hgroup. done.
  - intros Hgroup. rewrite Hgn, Hgu, Hgroup. done.
Qed.

Lemma stop_recorded_and_dispatched_witness :
  fst (ExperimentStopView_post request_stop sample_world)
  = inr {| status := HTTP_200_OK; body := VNone |} ∧
  journal (snd (ExperimentStopView_post request_stop sample_world))
  = [Recorded EXPERIMENT_STOPPED_TRIGGERED (OfExperiment 2) (Some 1) (Some "alice");
     Sent EXPERIMENTS_STOP
       {[ "project_name" := VStr "alice.quick-start";
          "project_uuid" := VStr "0a";
          "experiment_name" := VStr "alice.quick-start.1";
          "experiment_uuid" := VStr "0c";
          "experiment_group_name" := VStr "alice.quick-start.1";
          "experiment_group_uuid" := VStr "0b";
          "specification" := VDict {[ "lr" := VStr "0.1" ]};
          "update_status" := VBool true ]}].
Proof.
  destruct (stop_recorded_and_dispatched request_stop sample_world
              (experiment_with 2 (Some sweep) (Some "succeeded")))
    as (Hout & Hjournal & _).
  - vm_compute. reflexivity.
  - split; [exact Hout | exact Hjournal].
Defined.

(** ** Listing: the independent and group filters *)

(** C9, as amended.  When the independent flag reads as true and the group
    filter is a non-empty string, the listing fails with the validation
    error about the two filters, before the project is resolved and whatever
    the user; nothing is recorded. *)
Theorem independent_with_group_rejected `{Collaborators} (request : Request)
    (queryset : list Experiment) (w : World) (group : string) :
  to_bool (query_get (query_params request) "independent") = inr true →
  query_params request !! "group" = Some group →
  group ≠ EmptyString →
  ProjectExperimentListView_filter_queryset request queryset w =
    (inl (ValidationError
       "You cannot filter for independent experiments and group experiments at the same time."),
     w).
Proof.
  intros Hind Hgroup Hne. unfold ProjectExperimentListView_filter_queryset.
  rewrite (bind_inr _ _ w w true) by (unfold lift; by rewrite Hind).
  unfold query_get at 1. rewrite Hgroup. cbn [from_option truthy andb].
  destruct (String.eqb_spec group EmptyString); [done |]. reflexivity.
Qed.

(** C9: the claim as stated fails.  The group filter is present and is the
    empty string, so it is not null; with the independent flag set the
    listing succeeds and returns the project's independent experiments. *)
Lemma empty_group_filter_accepted :
  to_bool (query_get (query_params request_empty_group) "independent") = inr true ∧
  query_params request_empty_group !! "group" = Some EmptyString ∧
  fst (ProjectExperimentListView_filter_queryset request_empty_group
         [experiment_with 1 None (Some RUNNING);
          experiment_with 2 (Some sweep) (Some "succeeded")]
         sample_world)
  = inr [experiment_with 1 None (Some RUNNING)].
Proof.
  split_and!; vm_compute; reflexivity.
Qed.

Lemma independent_with_group_rejected_witness :
  ProjectExperimentListView_filter_queryset request_conflict [] sample_world =
    (inl (ValidationError
       "You cannot filter for independent experiments and group experiments at the same time."),
     sample_world).
Proof.
  refine (independent_with_group_rejected request_conflict [] sample_world "1" _ _ _).
  - vm_compute. reflexivity.
  - vm_compute. reflexivity.
  - discriminate.
Defined.

(** ** A falsy ttl *)

Lemma get_object_pure `{Collaborators} (request : Request) (w : World) :
  snd (get_object request w) = w.
Proof.
  unfold get_object, get_experiment_or_404. run.
  destruct (get_permissible_project request w); [done |]. cbn.
  destruct (experiments w !! kwargs_id request); [| done].
  by case_bool_decide.
Qed.

Lemma serializer_save_creates `{Collaborators} (serializer : ExperimentCreateSerializer)
    (u : User) (project : Project) (w : World) :
  ∃ instance : Experiment,
    serializer_save serializer u project w
    = (inr instance,
       snd (log (Created (OfExperiment (exp_id instance)))
                (set_experiments (λ m, <[exp_id instance := instance]> m) w))) ∧
    experiments w !! exp_id instance = None ∧
    exp_config instance = validated_config serializer ∧
    exp_project instance = project ∧
    exp_user instance = u.
Proof.
  unfold serializer_save. run. cbn [fst snd].
  match goal with |- ∃ _, (inr ?x, _) = _ ∧ _ => exists x end.
  cbn. split_and!; try done.
  apply not_elem_of_dom, is_fresh.
Qed.

Lemma perform_create_falsy_ttl `{RedisTTL, Collaborators} (request : Request)
    (serializer : ExperimentCreateSerializer) (w : World) (d : gmap string value) :
  data request = VDict d →
  truthy (dict_get d TTL_KEY) = false →
  let out := ProjectExperimentListView_perform_create request serializer w in
  redis_ttl (snd out) = redis_ttl w ∧
  ∀ project, get_permissible_project request w = inr project →
    group_accepted d project w →
    ∃ instance : Experiment,
      fst out = inr () ∧
      experiments w !! exp_id instance = None ∧
      experiments (snd out) = <[exp_id instance := instance]> (experiments w) ∧
      exp_config instance = validated_config serializer ∧
      journal (snd out) =
        journal w ++ [Created (OfExperiment (exp_id instance));
                      Recorded EXPERIMENT_CREATED (OfExperiment (exp_id instance))
                               None None].
Proof.
  intros Hdata Hfalsy out. subst out.
  unfold ProjectExperimentListView_perform_create. rewrite Hdata, Hfalsy.
  unfold group_count, set_for_experiment. run.
  destruct (get_permissible_project request w) as [e | project]; [by split |].
  assert (Hsave : ∀ b : bool,
    let out :=
      (if b then (λ w0, (inl (ValidationError "Received an invalid group."), w0))
       else serializer_save serializer (user request) project
              ≫= λ instance,
                   (λ w0, (inr (), snd (log (Recorded EXPERIMENT_CREATED
                              (OfExperiment (exp_id instance)) None None) w0)))
                   ≫= λ _, if truthy (dict_get d TTL_KEY)
                           then modify (set_redis_ttl
                                  (λ m, <[exp_id instance := dict_get d TTL_KEY]> m))
                           else mret ()) w in
    redis_ttl (snd out) = redis_ttl w ∧
    (b = false →
     ∃ instance : Experiment,
       fst out = inr () ∧
       experiments w !! exp_id instance = None ∧
       experiments (snd out) = <[exp_id instance := instance]> (experiments w) ∧
       exp_config instance = validated_config serializer ∧
       journal (snd out) =
         journal w ++ [Created (OfExperiment (exp_id instance));
                       Recorded EXPERIMENT_CREATED (OfExperiment (exp_id instance))
                                None None])).
  { intros [|]; cbn zeta; [by split |].
    destruct (serializer_save_creates serializer (user request) project w)
      as (instance & Hsave & Hfresh & Hcfg & _).
    rewrite (bind_inr _ _ _ _ _ Hsave), Hfalsy. run. cbn [fst snd].
    split; [done |]. intros _. exists instance.
    split_and!; try done. cbn. by rewrite <- app_assoc. }
  destruct (truthy (dict_get d "experiment_group")) eqn:Hgroup.
  - destruct (id_to_python (dict_get d "experiment_group")) as [e | id] eqn:Hid.
    { split; [done |]. intros p [= <-] [Hg | (id & g & Hid' & _)]; congruence. }
    cbn beta iota.
    destruct (Hsave (Nat.eqb
                match experiment_groups w !! id with
                | Some g => if bool_decide (eg_project g = project_id project)
                            then 1 else 0
                | None => 0
                end 0)) as [Httl Hmade].
    split; [exact Httl |].
    intros p [= <-] [Hg | (id' & g & Hid' & Hg & Hp)]; [congruence |].
    apply Hmade. replace id' with id in Hg by congruence.
    by rewrite Hg, bool_decide_eq_true_2.
  - destruct (Hsave false) as [Httl Hmade].
    split; [exact Httl |]. intros p [= <-] _. by apply Hmade.
Qed.

Lemma clone_post_falsy_ttl `{RedisTTL, Collaborators} (strategy : CloningStrategy)
    (request : Request) (w : World) (d : gmap string value) :
  data request = VDict d →
  truthy (dict_get d TTL_KEY) = false →
  let out := ExperimentCloneView_post strategy request w in
  redis_ttl (snd out) = redis_ttl w ∧
  ∀ obj config b,
    get_object request w = (inr obj, w) →
    requested_config d obj = inr config →
    requested_update_code d = inr b →
    ∃ new_obj : Experiment,
      fst out = inr {| status := HTTP_201_CREATED; body := serializer_data new_obj |} ∧
      experiments w !! exp_id new_obj = None ∧
      experiments (snd out) = <[exp_id new_obj := new_obj]> (experiments w).
Proof.
  intros Hdata Hfalsy out.
  assert (Hafter : ttl_after d = dict_get d TTL_KEY)
    by (unfold ttl_after; by rewrite Hfalsy).
  destruct (get_object request w) as [[e | obj] w'] eqn:Hobj.
  { pose proof (get_object_pure request w) as Hpure. rewrite Hobj in Hpure.
    cbn in Hpure. subst w' out. split; [| done].
    unfold ExperimentCloneView_post. rewrite Hdata, Hfalsy.
    rewrite (bind_inr _ _ w w (dict_get d TTL_KEY)) by done.
    by rewrite (bind_inl _ _ _ _ _ Hobj). }
  pose proof (get_object_pure request w) as Hpure. rewrite Hobj in Hpure.
  cbn in Hpure. subst w' out.
  rewrite (clone_post_steps strategy request w d obj Hdata (or_introl Hfalsy) Hobj).
  cbn zeta. rewrite Hafter. unfold store_ttl. rewrite Hfalsy.
  split.
  - destruct (requested_config d obj) as [e | [config declarations]]; [done |].
    destruct (requested_update_code d) as [e | b]; [done |].
    destruct (derive_creates strategy obj (user request) config declarations b
                (requested_description d)
                (snd (log (trigger strategy request obj) w)))
      as (new_obj & -> & _).
    done.
  - intros ? [config declarations] b [= <-] -> ->.
    destruct (derive_creates strategy obj (user request) config declarations b
                (requested_description d)
                (snd (log (trigger strategy request obj) w)))
      as (new_obj & -> & Hfresh & _).
    cbn in Hfresh. cbn [fst snd]. by exists new_obj.
Qed.

(** C10.  When the [ttl] field of a creation or derivation request is falsy
    ([None], [False], [0], the empty string, an empty list or dictionary),
    the view behaves the same whatever the ttl validator is, so the validator
    is not consulted and raises nothing; the TTL store is left as it was in
    every outcome; and the experiment is created whenever the rest of the
    request is in order. *)
Theorem falsy_ttl_ignored `{R : RedisTTL, C : Collaborators} (request : Request)
    (w : World) (d : gmap string value) :
  data request = VDict d →
  truthy (dict_get d TTL_KEY) = false →
  (∀ serializer : ExperimentCreateSerializer,
     let out := ProjectExperimentListView_perform_create request serializer w in
     (∀ R' : RedisTTL,
        @ProjectExperimentListView_perform_create R' C request serializer w = out) ∧
     redis_ttl (snd out) = redis_ttl w ∧
     (∀ project, get_permissible_project request w = inr project →
        group_accepted d project w →
        ∃ instance : Experiment,
          fst out = inr () ∧
          experiments w !! exp_id instance = None ∧
          experiments (snd out) = <[exp_id instance := instance]> (experiments w))) ∧
  (∀ strategy : CloningStrategy,
     let out := ExperimentCloneView_post strategy request w in
     (∀ R' : RedisTTL, @ExperimentCloneView_post R' C strategy request w = out) ∧
     redis_ttl (snd out) = redis_ttl w ∧
     (∀ obj config b,
        get_object request w = (inr obj, w) →
        requested_config d obj = inr config →
        requested_update_code d = inr b →
        ∃ new_obj : Experiment,
          fst out = inr {| status := HTTP_201_CREATED;
                           body := serializer_data new_obj |} ∧
          experiments w !! exp_id new_obj = None ∧
          experiments (snd out) = <[exp_id new_obj := new_obj]> (experiments w))).
Proof.
  intros Hdata Hfalsy. split.
  - intros serializer out.
    destruct (perform_create_falsy_ttl request serializer w d Hdata Hfalsy)
      as [Httl Hmade].
    split_and!; [| exact Httl |].
    + intros R'. subst out. unfold ProjectExperimentListView_perform_create.
      by rewrite Hdata, Hfalsy.
    + intros project Hproject Hgroup.
      destruct (Hmade project Hproject Hgroup) as (instance & ? & ? & ? & _).
      by exists instance.
  - intros strategy out.
    destruct (clone_post_falsy_ttl strategy request w d Hdata Hfalsy)
      as [Httl Hmade].
    split_and!; [| exact Httl | exact Hmade].
    intros R'. subst out. unfold ExperimentCloneView_post.
    by rewrite Hdata, Hfalsy.
Qed.

Lemma falsy_ttl_ignored_witness :
  redis_ttl (snd (ProjectExperimentListView_perform_create
                    request_zero_ttl sample_serializer sample_world)) = ∅ ∧
  fst (ProjectExperimentListView_perform_create
         request_zero_ttl sample_serializer sample_world) = inr () ∧
  redis_ttl (snd (ExperimentCloneView_post COPY request_zero_ttl sample_world)) = ∅ ∧
  ∃ new_obj : Experiment,
    fst (ExperimentCloneView_post COPY request_zero_ttl sample_world)
    = inr {| status := HTTP_201_CREATED; body := serializer_data new_obj |}.
Proof.
  destruct (falsy_ttl_ignored request_zero_ttl sample_world data_zero_ttl
              eq_refl eq_refl) as [Hcreate Hclone].
  destruct (Hcreate sample_serializer) as (_ & Httl & Hmade).
  destruct (Hmade quick_start eq_refl) as (instance & Hout & _).
  { left. vm_compute. reflexivity. }
  destruct (Hclone COPY) as (_ & Httl' & Hmade').
  destruct (Hmade' (experiment_with 1 None (Some RUNNING)) (None, None) false)
    as (new_obj & Hout' & _).
  { vm_compute. reflexivity. }
  { vm_compute. reflexivity. }
  { vm_compute. reflexivity. }
  split_and!; [exact Httl | exact Hout | exact Httl' | by exists new_obj].
Defined.

(** * Further properties of the views *)

(** ** Listing the experiments of a project *)

(** X1.  Without a group filter, a listing whose independent flag is read
    and whose project is permissible hands to the filter backends the
    experiments of that project, in their order, restricted to those without
    a group when the flag is set.  It records one project-viewed event, and
    records it before the backends run, so also when they fail. *)
Theorem listing_without_group `{Collaborators} (request : Request)
    (queryset : list Experiment) (w : World) (independent : bool)
    (project : Project) :
  to_bool (query_get (query_params request) "independent") = inr independent →
  truthy (query_get (query_params request) "group") = false →
  get_permissible_project request w = inr project →
  ProjectExperimentListView_filter_queryset request queryset w =
    (filter_backends request
       (if independent
        then filter (λ e, ¬ is_Some (experiment_group e)) (in_project project queryset)
        else in_project project queryset),
     journal_add [project_viewed request project] w).
Proof.
  intros Hind Hgroup Hproject.
  unfold ProjectExperimentListView_filter_queryset.
  rewrite (bind_inr _ _ w w independent) by (unfold lift; by rewrite Hind).
  rewrite Hgroup, andb_false_r. run. rewrite Hproject.
  by destruct independent.
Qed.

Lemma listing_without_group_witness :
  ProjectExperimentListView_filter_queryset request_independent both_experiments
    sample_world
  = (inr [experiment_with 1 None (Some RUNNING)],
     journal_add [project_viewed request_independent quick_start] sample_world).
Proof.
  rewrite (listing_without_group request_independent both_experiments
             sample_world true quick_start).
  - vm_compute. reflexivity.
  - vm_compute. reflexivity.
  - vm_compute. reflexivity.
  - reflexivity.
Defined.

(** X2.  With a group filter that names a group of the permissible project,
    and the independent flag off, the backends receive the project's
    experiments of that group.  The group-viewed event is recorded first and
    the project-viewed event second. *)
Theorem listing_by_group `{Collaborators} (request : Request)
    (queryset : list Experiment) (w : World) (project : Project)
    (id : nat) (group : ExperimentGroup) :
  to_bool (query_get (query_params request) "independent") = inr false →
  truthy (query_get (query_params request) "group") = true →
  get_permissible_project request w = inr project →
  id_to_python (query_get (query_params request) "group") = inr id →
  experiment_groups w !! id = Some group →
  eg_project group = project_id project →
  ProjectExperimentListView_filter_queryset request queryset w =
    (filter_backends request
       (filter (λ e, eg_id <$> experiment_group e = Some (eg_id group))
               (in_project project queryset)),
     journal_add [group_viewed request group; project_viewed request project] w).
Proof.
  intros Hind Hgroup Hproject Hid Hfound Hsame.
  unfold ProjectExperimentListView_filter_queryset.
  rewrite (bind_inr _ _ w w false) by (unfold lift; by rewrite Hind).
  rewrite Hgroup. cbn [andb]. unfold get_group. run.
  rewrite Hproject, Hid. cbn beta iota. rewrite Hfound.
  rewrite bool_decide_eq_true_2 by done. cbn beta iota.
  unfold journal_add, project_viewed, group_viewed, in_project. cbn.
  by rewrite <- app_assoc.
Qed.

Lemma listing_by_group_witness :
  @ProjectExperimentListView_filter_queryset strict_collaborators
    request_by_group both_experiments sample_world
  = (inr [experiment_with 2 (Some sweep) (Some "succeeded")],
     journal_add [group_viewed request_by_group sweep;
                  project_viewed request_by_group quick_start] sample_world).
Proof.
  rewrite (@listing_by_group strict_collaborators request_by_group
             both_experiments sample_world quick_start 1 sweep).
  - vm_compute. reflexivity.
  - vm_compute. reflexivity.
  - vm_compute. reflexivity.
  - vm_compute. reflexivity.
  - vm_compute. reflexivity.
  - vm_compute. reflexivity.
  - reflexivity.
Defined.



(** X4.  A listing is read-only on every path: the tables, the tokens and
    the TTL store are as before, and whatever it adds to the journal is a
    project-viewed or group-viewed record, never a task or a creation. *)
Theorem listing_is_read_only `{Collaborators} (request : Request)
    (queryset : list Experiment) (w : World) :
  let out := ProjectExperimentListView_filter_queryset request queryset w in
  experiments (snd out) = experiments w ∧
  experiment_groups (snd out) = experiment_groups w ∧
  experiment_metrics (snd out) = experiment_metrics w ∧
  tokens (snd out) = tokens w ∧
  redis_ttl (snd out) = redis_ttl w ∧
  ∃ added, journal (snd out) = journal w ++ added ∧ Forall is_view_record added.
Proof.
  assert (Hnone : ∃ added, journal w = journal w ++ added ∧ Forall is_view_record added).
  { exists []. by rewrite app_nil_r. }
  assert (Hproject : ∀ project : Project, is_view_record (project_viewed request project)).
  { intros project. unfold is_view_record, project_viewed. eauto. }
  assert (Hgroup : ∀ group : ExperimentGroup, is_view_record (group_viewed request group)).
  { intros group. unfold is_view_record, group_viewed. eauto. }
  cbn zeta. unfold ProjectExperimentListView_filter_queryset, get_group. run.
  destruct (to_bool _) as [e | independent]; [by split_and! |].
  destruct (independent && truthy _); [by split_and! |]. cbn beta iota.
  destruct (get_permissible_project request w) as [e | project]; [by split_and! |].
  destruct (truthy _).
  - destruct (id_to_python _) as [e | id]; [by split_and! |]. cbn beta iota.
    destruct (experiment_groups w !! id) as [group |]; [| by split_and!].
    case_bool_decide; [| by split_and!]. cbn.
    split_and!; try done.
    exists [group_viewed request group; project_viewed request project].
    split; [by rewrite <- app_assoc |]. repeat constructor; done.
  - cbn. split_and!; try done.
    exists [project_viewed request project]. split; [done |].
    repeat constructor; done.
Qed.

(** ** Creating an experiment *)

(** X5.  A truthy ttl the validator rejects with [ValueError] ends a
    creation with the ttl error before the project is resolved or the group
    looked at: the world is untouched, whoever asks. *)
Theorem create_rejects_malformed_ttl `{RedisTTL, Collaborators} (request : Request)
    (serializer : ExperimentCreateSerializer) (w : World)
    (d : gmap string value) :
  data request = VDict d →
  truthy (dict_get d TTL_KEY) = true →
  validate_ttl (dict_get d TTL_KEY) = inl ValueError →
  ProjectExperimentListView_perform_create request serializer w
  = (inl (ValidationError "ttl must be an integer."), w).
Proof.
  intros Hdata Htruthy Hrejected.
  unfold ProjectExperimentListView_perform_create.
  rewrite Hdata, Htruthy. unfold try_validate_ttl. by rewrite Hrejected.
Qed.

Lemma create_rejects_malformed_ttl_witness :
  ProjectExperimentListView_perform_create request_malformed_ttl
    sample_serializer sample_world
  = (inl (ValidationError "ttl must be an integer."), sample_world).
Proof.
  apply (create_rejects_malformed_ttl request_malformed_ttl sample_serializer
           sample_world {[ "ttl" := VStr "abc" ]}).
  - reflexivity.
  - vm_compute. reflexivity.
  - vm_compute. reflexivity.
Defined.

(** [perform_create], step by step, once the ttl is accepted and the project
    resolved. *)
Lemma perform_create_steps `{RedisTTL, Collaborators} (request : Request)
    (serializer : ExperimentCreateSerializer) (w : World)
    (d : gmap string value) (project : Project) :
  data request = VDict d →
  ttl_accepted d →
  get_permissible_project request w = inr project →
  ProjectExperimentListView_perform_create request serializer w =
    let saved := serializer_save serializer (user request) project w in
    let created :=
      match fst saved with
      | inl e => (inl e, snd saved)
      | inr instance =>
          (inr (),
           store_ttl (ttl_after d) (exp_id instance)
             (snd (log (Recorded EXPERIMENT_CREATED (OfExperiment (exp_id instance))
                                 None None) (snd saved))))
      end in
    if truthy (dict_get d "experiment_group")
    then
      match id_to_python (dict_get d "experiment_group") with
      | inl e => (inl e, w)
      | inr id =>
          match experiment_groups w !! id with
          | Some g =>
              if bool_decide (eg_project g = project_id project)
              then created
              else (inl (ValidationError "Received an invalid group."), w)
          | None => (inl (ValidationError "Received an invalid group."), w)
          end
      end
    else created.
Proof.
  intros Hdata Httl Hproject.
  unfold ProjectExperimentListView_perform_create. rewrite Hdata.
  rewrite (bind_inr _ _ _ _ _ (ttl_step d w Httl)).
  unfold group_count, set_for_experiment, store_ttl, serializer_save. run.
  rewrite Hproject. cbn [fst snd].
  destruct (truthy (dict_get d "experiment_group")).
  - destruct (id_to_python _) as [e | id]; [done |]. cbn beta iota.
    destruct (experiment_groups w !! id) as [g |].
    + case_bool_decide; cbn; [| done]. by destruct (truthy (ttl_after d)).
    + done.
  - by destruct (truthy (ttl_after d)).
Qed.

(** X6.  A creation that names a group which is not a group of the
    permissible project fails with the invalid-group error, also when its
    ttl is valid: no experiment is created, nothing is recorded and no ttl
    is stored. *)
Theorem create_rejects_foreign_group `{RedisTTL, Collaborators} (request : Request)
    (serializer : ExperimentCreateSerializer) (w : World)
    (d : gmap string value) (project : Project) (id : nat) :
  data request = VDict d →
  ttl_accepted d →
  get_permissible_project request w = inr project →
  truthy (dict_get d "experiment_group") = true →
  id_to_python (dict_get d "experiment_group") = inr id →
  group_unknown w project id →
  ProjectExperimentListView_perform_create request serializer w
  = (inl (ValidationError "Received an invalid group."), w).
Proof.
  intros Hdata Httl Hproject Hgroup Hid Hunknown.
  rewrite (perform_create_steps request serializer w d project Hdata Httl Hproject).
  cbn zeta. rewrite Hgroup, Hid.
  destruct Hunknown as [-> | (g & -> & Hother)]; [done |].
  by rewrite bool_decide_eq_false_2.
Qed.

Lemma create_rejects_foreign_group_witness :
  ProjectExperimentListView_perform_create request_foreign_group
    sample_serializer sample_world
  = (inl (ValidationError "Received an invalid group."), sample_world).
Proof.
  apply (create_rejects_foreign_group request_foreign_group sample_serializer
           sample_world data_foreign_group quick_start 9).
  - reflexivity.
  - right. exists (VInt 3600). vm_compute. reflexivity.
  - reflexivity.
  - vm_compute. reflexivity.
  - vm_compute. reflexivity.
  - left. vm_compute. reflexivity.
Defined.

(** X7.  A creation with an accepted ttl, a permissible project and an
    accepted group inserts the experiment under a fresh id for the requesting
    user, then records the created event against it without an actor.  The
    TTL store receives the validated ttl under the new id exactly when that
    validated value is truthy: a ttl that validates to zero is not stored. *)
Theorem create_stores_validated_ttl `{RedisTTL, Collaborators} (request : Request)
    (serializer : ExperimentCreateSerializer) (w : World)
    (d : gmap string value) (project : Project) :
  data request = VDict d →
  ttl_accepted d →
  get_permissible_project request w = inr project →
  group_accepted d project w →
  let out := ProjectExperimentListView_perform_create request serializer w in
  ∃ instance : Experiment,
    fst out = inr () ∧
    experiments w !! exp_id instance = None ∧
    experiments (snd out) = <[exp_id instance := instance]> (experiments w) ∧
    exp_project instance = project ∧
    exp_user instance = user request ∧
    journal (snd out) =
      journal w ++ [Created (OfExperiment (exp_id instance));
                    Recorded EXPERIMENT_CREATED (OfExperiment (exp_id instance))
                             None None] ∧
    redis_ttl (snd out) =
      if truthy (ttl_after d)
      then <[exp_id instance := ttl_after d]> (redis_ttl w)
      else redis_ttl w.
Proof.
  intros Hdata Httl Hproject Hgroup out. subst out.
  rewrite (perform_create_steps request serializer w d project Hdata Httl Hproject).
  cbn zeta.
  destruct (serializer_save_creates serializer (user request) project w)
    as (instance & Hsave & Hfresh & _ & Hp & Hu).
  rewrite Hsave. cbn [fst snd].
  assert (Hcreated :
    let out := (inr (),
                store_ttl (ttl_after d) (exp_id instance)
                  (snd (log (Recorded EXPERIMENT_CREATED
                               (OfExperiment (exp_id instance)) None None)
                          (snd (log (Created (OfExperiment (exp_id instance)))
                                  (set_experiments
                                     (λ m, <[exp_id instance := instance]> m) w))))))
               : (exn + unit) * World in
    fst out = inr () ∧
    experiments w !! exp_id instance = None ∧
    experiments (snd out) = <[exp_id instance := instance]> (experiments w) ∧
    exp_project instance = project ∧
    exp_user instance = user request ∧
    journal (snd out) =
      journal w ++ [Created (OfExperiment (exp_id instance));
                    Recorded EXPERIMENT_CREATED (OfExperiment (exp_id instance))
                             None None] ∧
    redis_ttl (snd out) =
      if truthy (ttl_after d)
      then <[exp_id instance := ttl_after d]> (redis_ttl w)
      else redis_ttl w).
  { cbn zeta. cbn [fst snd].
    rewrite store_ttl_experiments, store_ttl_journal.
    split_and!; try done.
    - cbn. by rewrite <- app_assoc.
    - unfold store_ttl. by destruct (truthy (ttl_after d)). }
  exists instance.
  destruct Hgroup as [-> | (id & g & -> & -> & Hsame)]; [exact Hcreated |].
  destruct (truthy (dict_get d "experiment_group")); [| exact Hcreated].
  rewrite bool_decide_eq_true_2 by done. exact Hcreated.
Qed.

Lemma create_stores_validated_ttl_witness :
  (∃ instance : Experiment,
     fst (ProjectExperimentListView_perform_create request_ttl_hour
            sample_serializer sample_world) = inr () ∧
     redis_ttl (snd (ProjectExperimentListView_perform_create request_ttl_hour
                       sample_serializer sample_world))
     = <[exp_id instance := VInt 3600]> ∅) ∧
  redis_ttl (snd (ProjectExperimentListView_perform_create request_ttl_text_zero
                    sample_serializer sample_world)) = ∅.
Proof.
  split.
  - destruct (create_stores_validated_ttl request_ttl_hour sample_serializer
                sample_world data_ttl_hour quick_start)
      as (instance & Hout & _ & _ & _ & _ & _ & Httl).
    + reflexivity.
    + right. exists (VInt 3600). vm_compute. reflexivity.
    + reflexivity.
    + left. vm_compute. reflexivity.
    + exists instance. split; [exact Hout | exact Httl].
  - destruct (create_stores_validated_ttl request_ttl_text_zero sample_serializer
                sample_world data_ttl_text_zero quick_start)
      as (instance & _ & _ & _ & _ & _ & _ & Httl).
    + reflexivity.
    + right. exists (VInt 0). vm_compute. reflexivity.
    + reflexivity.
    + left. vm_compute. reflexivity.
    + exact Httl.
Defined.

(** ** Resolving the experiment of a request *)

(** X14.  [get_object] of the clone and stop views answers with an
    experiment exactly when the project of the request is permissible and
    the table holds, under the requested id, an experiment of that project;
    it never changes the world.  An experiment of another project is not
    returned. *)
Theorem get_object_in_project `{Collaborators} (request : Request) (w w' : World)
    (obj : Experiment) :
  get_object request w = (inr obj, w') ↔
  w' = w ∧
  ∃ project : Project,
    get_permissible_project request w = inr project ∧
    experiments w !! kwargs_id request = Some obj ∧
    project_id (exp_project obj) = project_id project.
Proof.
  unfold get_object, get_experiment_or_404. run. split.
  - destruct (get_permissible_project request w) as [e | project]; [done |].
    cbn beta iota.
    destruct (experiments w !! kwargs_id request) as [found |]; [| done].
    case_bool_decide; [| done]. intros [= -> ->]. eauto.
  - intros (-> & project & -> & -> & Hsame).
    by rewrite bool_decide_eq_true_2.
Qed.

Lemma get_experiment_pure `{Collaborators} (request : Request) (w : World) :
  snd (get_experiment request w) = w.
Proof.
  unfold get_experiment, get_experiment_or_404. run.
  destruct (get_permissible_project request w); [done |]. cbn.
  destruct (experiments w !! kwargs_experiment_id request); [| done].
  by case_bool_decide.
Qed.

Lemma unresolved_object `{Collaborators} (request : Request) (w : World) (e : exn) :
  fst (get_object request w) = inl e → get_object request w = (inl e, w).
Proof.
  intros Hfail. pose proof (get_object_pure request w) as Hpure.
  destruct (get_object request w) as [r w']. cbn in *. by subst.
Qed.

Lemma unresolved_experiment `{Collaborators} (request : Request) (w : World) (e : exn) :
  fst (get_experiment request w) = inl e → get_experiment request w = (inl e, w).
Proof.
  intros Hfail. pose proof (get_experiment_pure request w) as Hpure.
  destruct (get_experiment request w) as [r w']. cbn in *. by subst.
Qed.

(** ** Derivation, continued *)

(** X8.  A derivation whose inputs are all accepted answers 201 for an
    experiment created under an id the table did not hold, and stores the
    validated ttl under that new id exactly when the validated value is
    truthy; the TTL store is otherwise as before, so nothing is stored for
    the source. *)
Theorem clone_stores_validated_ttl `{RedisTTL, Collaborators}
    (strategy : CloningStrategy) (request : Request) (w : World)
    (d : gmap string value) (obj : Experiment)
    (config : option value * option value) (b : bool) :
  data request = VDict d →
  ttl_accepted d →
  get_object request w = (inr obj, w) →
  requested_config d obj = inr config →
  requested_update_code d = inr b →
  let out := ExperimentCloneView_post strategy request w in
  ∃ new_obj : Experiment,
    fst out = inr {| status := HTTP_201_CREATED; body := serializer_data new_obj |} ∧
    experiments w !! exp_id new_obj = None ∧
    redis_ttl (snd out) =
      if truthy (ttl_after d)
      then <[exp_id new_obj := ttl_after d]> (redis_ttl w)
      else redis_ttl w.
Proof.
  intros Hdata Httl Hobj Hconfig Hupdate out. subst out.
  rewrite (clone_post_steps strategy request w d obj Hdata Httl Hobj).
  cbn zeta. rewrite Hconfig, Hupdate. destruct config as [config declarations].
  destruct (derive_creates strategy obj (user request) config declarations b
              (requested_description d)
              (snd (log (trigger strategy request obj) w)))
    as (new_obj & -> & Hfresh & _).
  cbn in Hfresh. cbn [fst snd]. exists new_obj. split_and!; try done.
  unfold store_ttl. by destruct (truthy (ttl_after d)).
Qed.

Lemma clone_stores_validated_ttl_witness :
  ∃ new_obj : Experiment,
    fst (ExperimentCloneView_post RESUME request_ttl_hour sample_world)
    = inr {| status := HTTP_201_CREATED; body := serializer_data new_obj |} ∧
    redis_ttl (snd (ExperimentCloneView_post RESUME request_ttl_hour sample_world))
    = <[exp_id new_obj := VInt 3600]> ∅.
Proof.
  destruct (clone_stores_validated_ttl RESUME request_ttl_hour sample_world
              data_ttl_hour (experiment_with 1 None (Some RUNNING))
              (None, None) false)
    as (new_obj & Hout & _ & Httl).
  - reflexivity.
  - right. exists (VInt 3600). vm_compute. reflexivity.
  - vm_compute. reflexivity.
  - vm_compute. reflexivity.
  - vm_compute. reflexivity.
  - exists new_obj. split; [exact Hout | exact Httl].
Defined.

(** X9.  Once the source is found, a derivation that fails on its [config]
    or on its [update_code] flag raises that error with the triggered event
    already in the journal and nothing else changed: the failed request
    leaves its audit record and no experiment.  The [config] is examined
    first, so its error is the one raised when both are wrong. *)
Theorem clone_fails_after_trigger `{RedisTTL, Collaborators}
    (strategy : CloningStrategy) (request : Request) (w : World)
    (d : gmap string value) (obj : Experiment) (e : exn) :
  data request = VDict d →
  ttl_accepted d →
  get_object request w = (inr obj, w) →
  requested_config d obj = inl e ∨
  ((∃ config, requested_config d obj = inr config) ∧
   requested_update_code d = inl e) →
  ExperimentCloneView_post strategy request w
  = (inl e, journal_add [trigger strategy request obj] w).
Proof.
  intros Hdata Httl Hobj Hfail.
  rewrite (clone_post_steps strategy request w d obj Hdata Httl Hobj). cbn zeta.
  destruct Hfail as [-> | [[[config declarations] ->] ->]]; done.
Qed.

Lemma clone_fails_after_trigger_witness :
  ExperimentCloneView_post COPY request_bad_update_code sample_world
  = (inl (ValidationError "The value cannot be interpreted as boolean"),
     journal_add [trigger COPY request_bad_update_code
                    (experiment_with 1 None (Some RUNNING))] sample_world).
Proof.
  apply (clone_fails_after_trigger COPY request_bad_update_code sample_world
           data_bad_update_code (experiment_with 1 None (Some RUNNING))).
  - reflexivity.
  - left. vm_compute. reflexivity.
  - vm_compute. reflexivity.
  - right. split; [exists (None, None) |]; vm_compute; reflexivity.
Defined.

(** X10.  A derivation whose ttl is accepted and whose source cannot be
    resolved (unknown id, another project's experiment, or a project that is
    not permissible) raises the lookup's error and leaves the world as it
    was: no event is recorded for it. *)
Theorem clone_source_unresolved `{RedisTTL, Collaborators}
    (strategy : CloningStrategy) (request : Request) (w : World)
    (d : gmap string value) (e : exn) :
  data request = VDict d →
  ttl_accepted d →
  fst (get_object request w) = inl e →
  ExperimentCloneView_post strategy request w = (inl e, w).
Proof.
  intros Hdata Httl Hfail. unfold ExperimentCloneView_post. rewrite Hdata.
  rewrite (bind_inr _ _ _ _ _ (ttl_step d w Httl)).
  by rewrite (bind_inl _ _ _ _ _ (unresolved_object request w e Hfail)).
Qed.

Lemma clone_source_unresolved_witness :
  ExperimentCloneView_post RESTART request_missing sample_world
  = (inl Http404, sample_world).
Proof.
  apply (clone_source_unresolved RESTART request_missing sample_world ∅).
  - reflexivity.
  - left. vm_compute. reflexivity.
  - vm_compute. reflexivity.
Defined.

(** ** Stopping, continued *)

(** X15.  A stop request fails exactly when its experiment cannot be
    resolved; it then raises the lookup's error and leaves the world as it
    was, so nothing is recorded and no task is sent. *)
Theorem stop_fails_only_unresolved `{Collaborators} (request : Request)
    (w : World) (e : exn) :
  (fst (ExperimentStopView_post request w) = inl e ↔
   fst (get_object request w) = inl e) ∧
  (fst (ExperimentStopView_post request w) = inl e →
   snd (ExperimentStopView_post request w) = w).
Proof.
  pose proof (get_object_pure request w) as Hpure.
  destruct (get_object request w) as [[e' | obj] w'] eqn:Hobj;
    cbn in Hpure; subst w'.
  - unfold ExperimentStopView_post. rewrite (bind_inl _ _ _ _ _ Hobj).
    cbn. split; [split; intros [= ->]; reflexivity | reflexivity].
  - rewrite (stop_post_steps request w obj Hobj). cbn.
    split; [split |]; discriminate.
Qed.

(** ** Metrics, continued *)

(** X11.  A metrics submission whose payload is not a list and passes the
    serializer, for an experiment that is found, writes exactly one row,
    holding the experiment's id and the validated payload, after the rows
    already there; it sends no task and the journal is as before. *)
Theorem metric_single_record_saved `{Collaborators} (request : Request)
    (w : World) (validated : value) (experiment : Experiment) :
  (∀ records, data request ≠ VList records) →
  metric_is_valid (data request) = inr validated →
  get_experiment request w = (inr experiment, w) →
  let out := ExperimentMetricListView_create request w in
  let row := {| metric_experiment := exp_id experiment;
                metric_values := validated |} in
  fst out = inr {| status := HTTP_201_CREATED;
                   body := metric_serializer_data row |} ∧
  experiment_metrics (snd out) = experiment_metrics w ++ [row] ∧
  journal (snd out) = journal w ∧
  experiments (snd out) = experiments w ∧
  tokens (snd out) = tokens w ∧
  redis_ttl (snd out) = redis_ttl w.
Proof.
  intros Hshape Hvalid Hexp out row. subst out row.
  unfold ExperimentMetricListView_create, ExperimentMetricListView_perform_create.
  destruct (data request) as [| | | | records |] eqn:Hdata;
    try (by destruct (Hshape records));
    (rewrite (bind_inr _ _ w w validated) by (unfold lift; by rewrite Hvalid));
    rewrite (bind_inr _ _ _ _ _ (bind_inr _ _ _ _ _ Hexp)); run; done.
Qed.

Lemma metric_single_record_saved_witness :
  fst (ExperimentMetricListView_create request_one_metric sample_world)
  = inr {| status := HTTP_201_CREATED; body := one_metric |} ∧
  experiment_metrics (snd (ExperimentMetricListView_create request_one_metric
                             sample_world))
  = [{| metric_experiment := 1; metric_values := one_metric |}] ∧
  journal (snd (ExperimentMetricListView_create request_one_metric sample_world))
  = [].
Proof.
  destruct (metric_single_record_saved request_one_metric sample_world one_metric
              (experiment_with 1 None (Some RUNNING)))
    as (Hout & Hrows & Hjournal & _).
  - intros records. discriminate.
  - reflexivity.
  - vm_compute. reflexivity.
  - split_and!; [exact Hout | exact Hrows | exact Hjournal].
Defined.

(** X12.  A payload that is not a list and fails the serializer is rejected
    with the serializer's error before the experiment is looked up: the
    world is untouched, and the error is the same whether or not the
    experiment exists. *)
Theorem metric_invalid_rejected_first `{Collaborators} (request : Request)
    (w : World) (e : exn) :
  (∀ records, data request ≠ VList records) →
  metric_is_valid (data request) = inl e →
  ExperimentMetricListView_create request w = (inl e, w).
Proof.
  intros Hshape Hinvalid. unfold ExperimentMetricListView_create.
  destruct (data request) as [| | | | records |] eqn:Hdata;
    try (by destruct (Hshape records));
    by rewrite (bind_inl _ _ w w e) by (unfold lift; by rewrite Hinvalid).
Qed.

Lemma metric_invalid_rejected_first_witness :
  @ExperimentMetricListView_create strict_collaborators request_bad_metric
    sample_world
  = (inl (ValidationError "Invalid data. Expected a dictionary."), sample_world).
Proof.
  apply (@metric_invalid_rejected_first strict_collaborators request_bad_metric
           sample_world).
  - intros records. discriminate.
  - reflexivity.
Defined.

(** X13.  A list payload for an experiment that cannot be resolved raises
    the lookup's error: no task is sent and no row is written. *)
Theorem metric_list_unresolved `{Collaborators} (request : Request) (w : World)
    (records : list value) (e : exn) :
  data request = VList records →
  fst (get_experiment request w) = inl e →
  ExperimentMetricListView_create request w = (inl e, w).
Proof.
  intros Hdata Hfail. unfold ExperimentMetricListView_create. rewrite Hdata.
  by rewrite (bind_inl _ _ _ _ _ (unresolved_experiment request w e Hfail)).
Qed.

Lemma metric_list_unresolved_witness :
  ExperimentMetricListView_create request_metrics_missing sample_world
  = (inl Http404, sample_world).
Proof.
  apply (metric_list_unresolved request_metrics_missing sample_world three_records).
  - reflexivity.
  - vm_compute. reflexivity.
Defined.

(** ** The scope-token exchange, continued *)

(** [get_or_create] followed by [get_or_create]: the second call finds the
    token of the first and changes nothing. *)
Lemma get_or_create_settles `{Collaborators} (u : User) (w : World) :
  NoDup (token_user <$> tokens w) →
  ∃ (token : Token) (created : bool) (w' : World),
    Token_get_or_create u w = (inr (token, created), w') ∧
    Token_get_or_create u w' = (inr (token, false), w') ∧
    experiments w' = experiments w.
Proof.
  intros Hunique. unfold Token_get_or_create. run.
  pose proof (one_token_per_user (tokens w) (user_id u) Hunique) as Hone.
  destruct (filter (λ t, token_user t = user_id u) (tokens w))
    as [|t [|t' rest]] eqn:Hrows; [| | cbn in Hone; lia].
  - eexists _, true, _. split; [reflexivity |]. cbn.
    rewrite filter_app, Hrows, filter_cons_True by done. done.
  - exists t, false, w. by rewrite Hrows.
Qed.

(** X16.  A successful exchange is idempotent: repeating the request in the
    world it leaves gives the same answer, with the same token, and leaves
    that world as it is. *)
Theorem scope_exchange_idempotent `{Collaborators} (request : Request)
    (w : World) (presented : list string) (experiment : Experiment) :
  scope (user request) = Some presented →
  experiments w !! kwargs_id request = Some experiment →
  live (last_status experiment) →
  sorted presented = sorted (get_scope (user_id (exp_user experiment)) "experiment"
                                       (exp_id experiment)) →
  NoDup (token_user <$> tokens w) →
  let out := ExperimentScopeTokenView_post request w in
  ExperimentScopeTokenView_post request (snd out) = (fst out, snd out).
Proof.
  intros Hscope Hobj Hlive Hsorted Hunique out. subst out.
  destruct (get_or_create_settles (exp_user experiment) w Hunique)
    as (token & created & w' & Hfirst & Hsecond & Hsame).
  rewrite (scope_token_post_live _ _ _ _ Hscope Hobj Hlive).
  rewrite bool_decide_eq_false_2 by (intros Hne; by apply Hne).
  rewrite (bind_inr _ _ _ _ _ Hfirst). cbn [fst snd]. run. cbn [fst snd].
  rewrite <- Hsame in Hobj.
  rewrite (scope_token_post_live _ _ _ _ Hscope Hobj Hlive).
  rewrite bool_decide_eq_false_2 by (intros Hne; by apply Hne).
  by rewrite (bind_inr _ _ _ _ _ Hsecond).
Qed.

Lemma scope_exchange_idempotent_witness :
  ExperimentScopeTokenView_post request_rearranged
    (snd (ExperimentScopeTokenView_post request_rearranged sample_world))
  = (fst (ExperimentScopeTokenView_post request_rearranged sample_world),
     snd (ExperimentScopeTokenView_post request_rearranged sample_world)).
Proof.
  apply (scope_exchange_idempotent request_rearranged sample_world
           ["experiment:1"; "username:alice"]
           (experiment_with 1 None (Some RUNNING))).
  - reflexivity.
  - vm_compute. reflexivity.
  - unfold live. apply (bool_decide_unpack _). vm_compute. exact I.
  - vm_compute. reflexivity.
  - apply NoDup_nil_2.
Defined.

(** X17.  A caller that presents a scope for an experiment the table does
    not hold gets a 404, not a 403, and the world is untouched. *)
Theorem scope_exchange_missing_experiment `{Collaborators} (request : Request)
    (w : World) (presented : list string) :
  scope (user request) = Some presented →
  experiments w !! kwargs_id request = None →
  ExperimentScopeTokenView_post request w = (inl Http404, w).
Proof.
  intros Hscope Hmissing. unfold ExperimentScopeTokenView_post, get_object_by_id.
  rewrite Hscope. run. by rewrite Hmissing.
Qed.

Lemma scope_exchange_missing_experiment_witness :
  ExperimentScopeTokenView_post request_scope_missing sample_world
  = (inl Http404, sample_world).
Proof.
  apply (scope_exchange_missing_experiment request_scope_missing sample_world
           ["experiment:99"]).
  - reflexivity.
  - vm_compute. reflexivity.
Defined.

(** X18.  On every path the exchange leaves the experiments, the groups, the
    metrics, the TTL store and the journal as they were: it records no audit
    event.  The token table is either as before, or has one more row, at its
    end; a row is added only together with a 200 answer carrying that row's
    key. *)
Theorem scope_exchange_footprint `{Collaborators} (request : Request) (w : World) :
  let out := ExperimentScopeTokenView_post request w in
  experiments (snd out) = experiments w ∧
  experiment_groups (snd out) = experiment_groups w ∧
  experiment_metrics (snd out) = experiment_metrics w ∧
  redis_ttl (snd out) = redis_ttl w ∧
  journal (snd out) = journal w ∧
  (tokens (snd out) = tokens w ∨
   ∃ token : Token,
     tokens (snd out) = tokens w ++ [token] ∧
     fst out = inr {| status := HTTP_200_OK;
                      body := VDict {[ "token" := VStr (key token) ]} |}).
Proof.
  cbn zeta.
  unfold ExperimentScopeTokenView_post, get_object_by_id, Token_get_or_create. run.
  destruct (scope (user request)); [| by split_and!; try left].
  destruct (experiments w !! kwargs_id request) as [experiment |];
    [| by split_and!; try left].
  cbn beta iota.
  destruct (negb _); [by split_and!; try left |].
  case_bool_decide; [by split_and!; try left |].
  destruct (filter _ (tokens w)) as [|t [|t' rest]]; cbn.
  - split_and!; try done. right. eauto.
  - by split_and!; try left.
  - by split_and!; try left.
Qed.

(** ** Choosing the serializer of a listing *)

(** X19.  For a request whose method is POST, in any letter case, the create
    serializer is chosen without reading the query flags.  For any other
    method a metrics flag that reads true selects the metrics serializer
    without reading the declarations flag, and the default serializer is the
    answer exactly when both flags read false. *)
Theorem serializer_class_precedence `{Collaborators} (method : string)
    (request : Request) :
  let chosen := ProjectExperimentListView_get_serializer_class method request in
  let metrics := to_bool (query_get (query_params request) "metrics") in
  let declarations := to_bool (query_get (query_params request) "declarations") in
  (lower method = "post" → chosen = inr create_serializer_class) ∧
  (lower method ≠ "post" → metrics = inr true →
   chosen = inr metrics_serializer_class) ∧
  (chosen = inr declarations_serializer_class ↔
   lower method ≠ "post" ∧ metrics = inr false ∧ declarations = inr true) ∧
  (chosen = inr serializer_class ↔
   lower method ≠ "post" ∧ metrics = inr false ∧ declarations = inr false).
Proof.
  cbn zeta. unfold ProjectExperimentListView_get_serializer_class.
  destruct (String.eqb_spec (lower method) "post") as [Hpost | Hother].
  { split_and!; [done | done | |]; split; try done; by intros [? _]. }
  destruct (to_bool (query_get (query_params request) "metrics"))
    as [e | [|]].
  - split_and!; [done | done | |]; split; try done; by intros (_ & ? & _).
  - split_and!; [done | done | |]; split; try done; by intros (_ & ? & _).
  - destruct (to_bool (query_get (query_params request) "declarations"))
      as [e | [|]];
      (split_and!; [done | done | |]; split; try done; by intros (_ & _ & ?)).
Qed.

Lemma serializer_class_precedence_witness :
  ProjectExperimentListView_get_serializer_class "POST" request_flags
  = inr create_serializer_class ∧
  ProjectExperimentListView_get_serializer_class "GET" request_flags
  = inr metrics_serializer_class.
Proof.
  destruct (serializer_class_precedence "POST" request_flags) as (Hpost & _).
  destruct (serializer_class_precedence "GET" request_flags) as (_ & Hget & _).
  split.
  - apply Hpost. vm_compute. reflexivity.
  - apply Hget; vm_compute; [discriminate | reflexivity].
Defined.

(** ** The cached properties of a project *)

(** X20.  On an instance that has not read it yet, [has_tensorboard] does
    not see the tensorboard jobs attached to an experiment or to a group:
    removing such a job from the table, wherever it stands, changes neither
    the answer nor what is cached. *)
Theorem has_tensorboard_ignores_bound_jobs (notebooks : list NotebookJob)
    (before after : list TensorboardJob) (job : TensorboardJob) :
  ¬ project_level job →
  has_tensorboard {| notebook_jobs := notebooks;
                     tensorboard_jobs := before ++ job :: after |} empty_cache
  = has_tensorboard {| notebook_jobs := notebooks;
                       tensorboard_jobs := before ++ after |} empty_cache.
Proof.
  intros Hbound. unfold has_tensorboard, tensorboard. cbn.
  by rewrite !filter_app, filter_cons_False.
Qed.

Lemma has_tensorboard_ignores_bound_jobs_witness :
  has_tensorboard jobs_sample empty_cache
  = has_tensorboard
      {| notebook_jobs := [];
         tensorboard_jobs :=
           [ {| tb_id := 1; tb_experiment := None; tb_experiment_group := None;
                tb_is_running := true |};
             {| tb_id := 2; tb_experiment := None; tb_experiment_group := None;
                tb_is_running := false |} ] |}
      empty_cache.
Proof.
  refine (has_tensorboard_ignores_bound_jobs []
            [ {| tb_id := 1; tb_experiment := None; tb_experiment_group := None;
                 tb_is_running := true |};
              {| tb_id := 2; tb_experiment := None; tb_experiment_group := None;
                 tb_is_running := false |} ]
            []
            {| tb_id := 3; tb_experiment := Some 1; tb_experiment_group := None;
               tb_is_running := true |} _).
  intros [Hexperiment _]. discriminate.
Defined.

(** X21.  On an instance that has not read them yet, the most recent job
    decides: [has_tensorboard] is the running flag of the last project-level
    tensorboard job and [has_notebook] the running flag of the last notebook
    job, whatever the older jobs are; without such a job the answer is
    [None], not [False]. *)
Theorem latest_job_decides (notebooks : list NotebookJob)
    (tensorboards : list TensorboardJob) :
  (∀ job, project_level job →
     fst (has_tensorboard {| notebook_jobs := notebooks;
                             tensorboard_jobs := tensorboards ++ [job] |}
                          empty_cache)
     = VBool (tb_is_running job)) ∧
  (∀ job,
     fst (has_notebook {| notebook_jobs := notebooks ++ [job];
                          tensorboard_jobs := tensorboards |} empty_cache)
     = VBool (nb_is_running job)) ∧
  (Forall (λ job, ¬ project_level job) tensorboards →
   fst (has_tensorboard {| notebook_jobs := notebooks;
                           tensorboard_jobs := tensorboards |} empty_cache)
   = VNone) ∧
  fst (has_notebook {| notebook_jobs := [];
                       tensorboard_jobs := tensorboards |} empty_cache)
  = VNone.
Proof.
  split_and!.
  - intros job Hlevel. unfold has_tensorboard, tensorboard. cbn.
    rewrite filter_app, filter_cons_True, filter_nil by done.
    by rewrite last_snoc.
  - intros job. unfold has_notebook, notebook. cbn. by rewrite last_snoc.
  - intros Hbound. unfold has_tensorboard, tensorboard. cbn.
    replace (filter _ tensorboards) with (@nil TensorboardJob); [done |].
    symmetry. induction Hbound as [|job rest Hjob _ IH]; [done |].
    by rewrite filter_cons_False.
  - reflexivity.
Qed.

Lemma latest_job_decides_witness :
  fst (has_tensorboard
         {| notebook_jobs := [];
            tensorboard_jobs :=
              [ {| tb_id := 1; tb_experiment := None; tb_experiment_group := None;
                   tb_is_running := true |} ]
              ++ [ {| tb_id := 2; tb_experiment := None;
                      tb_experiment_group := None; tb_is_running := false |} ] |}
         empty_cache)
  = VBool false.
Proof.
  destruct (latest_job_decides []
              [ {| tb_id := 1; tb_experiment := None; tb_experiment_group := None;
                   tb_is_running := true |} ]) as (Hlatest & _).
  apply (Hlatest {| tb_id := 2; tb_experiment := None;
                    tb_experiment_group := None; tb_is_running := false |}).
  split; reflexivity.
Defined.

(** X22.  What a cached property answered first is what it answers from
    then on, on the same instance, whatever the job tables have become in
    the meantime, and the later reads leave the cache as it is.  A first
    read of [has_tensorboard] also fixes [tensorboard], and a first read of
    [has_notebook] fixes [notebook]. *)
Theorem cached_properties_are_sticky (jobs jobs' : ProjectJobs)
    (self : ProjectCache) :
  has_tensorboard jobs' (snd (has_tensorboard jobs self))
    = has_tensorboard jobs self ∧
  has_notebook jobs' (snd (has_notebook jobs self)) = has_notebook jobs self ∧
  tensorboard jobs' (snd (tensorboard jobs self)) = tensorboard jobs self ∧
  notebook jobs' (snd (notebook jobs self)) = notebook jobs self ∧
  (cached_has_tensorboard self = None →
   fst (tensorboard jobs' (snd (has_tensorboard jobs self)))
   = fst (tensorboard jobs self)) ∧
  (cached_has_notebook self = None →
   fst (notebook jobs' (snd (has_notebook jobs self)))
   = fst (notebook jobs self)).
Proof.
  unfold has_tensorboard, has_notebook, tensorboard, notebook.
  destruct self as [cn chn ct cht]. cbn.
  destruct cn, chn, ct, cht; cbn; split_and!; done.
Qed.
